(** * SmartFlood Mumbai front end: risk aggregation and map interaction

    A shallow embedding of the client-side pipeline of [flood-frontend/src]:
    the API client ([api.js]), the prediction formatter, the statistics
    cards ([StatsCards.js]), the map component ([MapComponent.js]) and the
    state that [App.js] and [Dashboard.js] thread through them.

    JavaScript values are an inductive type, numbers are doubles given by
    rationals and rounded by every arithmetic step (plus NaN), objects are
    association lists read by property name, the region-to-prediction state
    is a [gmap] keyed by strings, and every [async] function is a small tree
    that suspends at its [await]. *)

From stdpp Require Import gmap strings list fin_maps pretty.
From Stdlib Require Import Ascii QArith Qcanon Qround Lqa.

Set Warnings "-register-all".
Open Scope Qc_scope.

(* ===================================================================== *)
(** ** JavaScript values *)
(* ===================================================================== *)

Module JS.

(** A JS number is a double.  [Fin q] is the double nearest to the
    rational [q], where [q] is what a numeric text of a JSON answer or a
    literal of the source denotes, or the exact value of a double.  A
    rational of size [2^1024] or more stands for an infinity, and the sign
    of a zero is not kept.  The tests the code makes on a number
    (truthiness, the comparisons with its constants, [=== 2]) are decided on
    [q] itself: rounding to a double is monotone, so they agree with the
    engine unless rounding carries the text across the constant.  Arithmetic
    rounds as the engine does ([num_add] and [num_div] below). *)
Inductive JsNum : Type :=
| NaN
| Fin (q : Qc).

Inductive JsVal : Type :=
| JUndefined
| JNull
| JBool (b : bool)
| JNum (n : JsNum)
| JStr (s : string)
| JArr (items : list JsVal)
| JObj (fields : list (string * JsVal)).

(** Decimal literals of the source: [dec 7 10] is [0.7]. *)
Definition dec (n : Z) (d : positive) : Qc := Q2Qc (n # d).
Definition num (n : Z) : JsVal := JNum (Fin (Q2Qc (inject_Z n))).

(** What a [throw] carries.  [TypeError] is raised by the engine when a
    property of [undefined] or [null] is read; [Error] is
    [new Error(message)]; [AxiosError] is the rejection of an axios call,
    with [response] set when the server answered with a non-2xx status
    and [request] set when the request was sent. *)
Record Response := { status : nat; data : JsVal }.

(** A template string: literal text, interpolated values, and the text an
    engine gives its own TypeError (which the language does not fix). *)
Inductive Part : Type :=
| Lit (s : string)
| Interp (v : JsVal)
| EngineText.

Inductive Thrown : Type :=
| TypeError
| Error (message : list Part)
| AxiosError (response : option Response) (request : bool) (message : string).

Inductive Completion (A : Type) : Type :=
| Normal (a : A)
| Throw (e : Thrown).
Arguments Normal {A} a.
Arguments Throw {A} e.

Definition cbind {A B} (k : A -> Completion B) (c : Completion A) : Completion B :=
  match c with
  | Normal a => k a
  | Throw e => Throw e
  end.

#[global] Instance Completion_ret : MRet Completion := @Normal.
#[global] Instance Completion_bind : MBind Completion := @cbind.

(** [error.message], [error.response] and [error.request] of a caught
    value. *)
Definition message_of (e : Thrown) : list Part :=
  match e with
  | TypeError => [EngineText]
  | Error message => message
  | AxiosError _ _ message => [Lit message]
  end.

Definition response_of (e : Thrown) : option Response :=
  match e with
  | AxiosError response _ _ => response
  | _ => None
  end.

Definition request_of (e : Thrown) : bool :=
  match e with
  | AxiosError _ request _ => request
  | _ => false
  end.

(** ToBoolean. *)
Definition truthy (v : JsVal) : bool :=
  match v with
  | JUndefined | JNull => false
  | JBool b => b
  | JNum NaN => false
  | JNum (Fin q) => negb (bool_decide (q = 0))
  | JStr s => negb (bool_decide (s = ""%string))
  | JArr _ | JObj _ => true
  end.

(** [a || b]. *)
Definition or (a b : JsVal) : JsVal := if truthy a then a else b.

Definition nullish (v : JsVal) : bool :=
  match v with
  | JUndefined | JNull => true
  | _ => false
  end.

Fixpoint assoc (fields : list (string * JsVal)) (k : string) : JsVal :=
  match fields with
  | [] => JUndefined
  | (k', v) :: rest => if bool_decide (k' = k) then v else assoc rest k
  end.

(** The property [k] of a non-nullish value, for the names the embedded
    code reads ([random_forest], [timestamp], [riskLevel], ...): parsed JSON
    has such a property only as an own property of an object; a primitive,
    a string and an array have none of them, and neither has
    [Object.prototype]. *)
Definition own (v : JsVal) (k : string) : JsVal :=
  match v with
  | JObj fields => assoc fields k
  | _ => JUndefined
  end.

(** [v.k]: a TypeError on [undefined] and [null]. *)
Definition get (v : JsVal) (k : string) : Completion JsVal :=
  if nullish v then Throw TypeError else Normal (own v k).

(** [v?.k]. *)
Definition get_opt (v : JsVal) (k : string) : JsVal :=
  if nullish v then JUndefined else own v k.

(** The names every object inherits from [Object.prototype]: [obj[key]]
    finds a member there when [obj] has no own property [key]. *)
Definition object_prototype_members : list string :=
  [ "constructor"; "hasOwnProperty"; "isPrototypeOf"; "propertyIsEnumerable";
    "toLocaleString"; "toString"; "valueOf"; "__proto__";
    "__defineGetter__"; "__defineSetter__"; "__lookupGetter__";
    "__lookupSetter__" ]%string.

(** What [obj[key]] finds there: a function, or [Object.prototype] itself
    under [__proto__].  It is truthy and has none of the properties the
    embedded code reads from what it looked up; the empty object stands for
    it. *)
Definition inherited_member : JsVal := JObj [].

(** [v === n] for a numeric literal [n]. *)
Definition strict_eq_num (v : JsVal) (n : Z) : bool :=
  match v with
  | JNum (Fin q) => bool_decide (q = Q2Qc (inject_Z n))
  | _ => false
  end.

(** ToNumber on the values whose conversion is arithmetic.  Strings,
    arrays and objects convert through StringToNumber and ToPrimitive,
    which lie outside the embedding: [None]. *)
Definition ToNumber (v : JsVal) : option JsNum :=
  match v with
  | JUndefined => Some NaN
  | JNull => Some (Fin 0)
  | JBool b => Some (Fin (if b then 1 else 0))
  | JNum n => Some n
  | JStr _ | JArr _ | JObj _ => None
  end.

(** [a >= b] and [a > b] on numbers: false as soon as one side is NaN. *)
Definition num_ge (a b : JsNum) : bool :=
  match a, b with
  | Fin x, Fin y => bool_decide (y ≤ x)
  | _, _ => false
  end.

Definition num_gt (a b : JsNum) : bool :=
  match a, b with
  | Fin x, Fin y => bool_decide (y < x)
  | _, _ => false
  end.

(** *** Doubles: round to nearest, ties to even *)

(** [2^e] as a rational. *)
Definition pow2 (e : Z) : Q :=
  if (0 <=? e)%Z then inject_Z (2 ^ e) else (/ inject_Z (2 ^ (- e)))%Q.

(** The integer [e] with [2^e <= q < 2^(e+1)], for [q > 0]. *)
Definition exponent (q : Q) : Z :=
  let e := (Z.log2 (Qnum q) - Z.log2 (Z.pos (Qden q)))%Z in
  if Qle_bool (pow2 e) q then e else (e - 1)%Z.

(** The integer nearest to [q], the even one on a tie. *)
Definition nearest_even (q : Q) : Z :=
  let f := Qfloor q in
  match Qcompare (q - inject_Z f) (1 # 2) with
  | Lt => f
  | Gt => (f + 1)%Z
  | Eq => if Z.even f then f else (f + 1)%Z
  end.

(** The size that stands for Infinity. *)
Definition overflow : Q := pow2 1024.

(** The double nearest to [q > 0]: a multiple of [2^(e - 52)] for the
    exponent [e] of [q], of [2^-1074] at the least (subnormal numbers); from
    [2^1024] on the result is Infinity. *)
Definition nearest_double (q : Q) : Q :=
  let unit := pow2 (Z.max (exponent q - 52) (-1074)) in
  let r := (inject_Z (nearest_even (q / unit)) * unit)%Q in
  if Qle_bool overflow r then overflow else r.

(** The value of the double that [Fin q] is. *)
Definition binary64 (q : Qc) : Qc :=
  match Qcompare q 0 with
  | Eq => 0
  | Gt => Q2Qc (Qred (nearest_double q))
  | Lt => - Q2Qc (Qred (nearest_double (- q)))
  end.

Definition infinite (q : Qc) : bool :=
  bool_decide (Q2Qc overflow ≤ q) || bool_decide (q ≤ - Q2Qc overflow).

(** Infinity with the sign of [x * y]. *)
Definition signed_infinity (x y : Qc) : Qc :=
  if bool_decide (0 < x * y) then Q2Qc overflow else - Q2Qc overflow.

(** [a + b]: the sum of the two doubles, rounded; Infinity plus -Infinity
    is NaN. *)
Definition num_add (a b : JsNum) : JsNum :=
  match a, b with
  | Fin x, Fin y =>
      let x := binary64 x in
      let y := binary64 y in
      if infinite x
      then (if infinite y && negb (bool_decide (x = y)) then NaN else Fin x)
      else if infinite y then Fin y
      else Fin (binary64 (x + y))
  | _, _ => NaN
  end.

(** [a / b], rounded; [0 / 0] and Infinity over Infinity are NaN.  The
    callers below divide by a length, so a divisor that is zero is [+0]: a
    non-zero value over it is the infinity of the value's sign. *)
Definition num_div (a b : JsNum) : JsNum :=
  match a, b with
  | Fin x, Fin y =>
      let x := binary64 x in
      let y := binary64 y in
      if bool_decide (y = 0)
      then (if bool_decide (x = 0) then NaN else Fin (signed_infinity x 1))
      else if infinite x
           then (if infinite y then NaN else Fin (signed_infinity x y))
           else if infinite y then Fin 0
                else Fin (binary64 (x / y))
  | _, _ => NaN
  end.

(** [a * b], rounded; Infinity times zero is NaN. *)
Definition num_mul (a b : JsNum) : JsNum :=
  match a, b with
  | Fin x, Fin y =>
      let x := binary64 x in
      let y := binary64 y in
      if infinite x || infinite y
      then (if bool_decide (x * y = 0) then NaN else Fin (signed_infinity x y))
      else Fin (binary64 (x * y))
  | _, _ => NaN
  end.

(** The sum as a loop of the code computes it, [s += x] from left to
    right, and the mean it derives from it: each step rounds, so the
    results depend on the order of the numbers. *)
Definition float_sum (xs : list Qc) : JsNum :=
  foldl (fun s x => num_add s (Fin x)) (Fin 0) xs.

Definition float_mean (xs : list Qc) : JsNum :=
  num_div (float_sum xs) (Fin (Q2Qc (inject_Z (Z.of_nat (length xs))))).

End JS.
Export JS.

(* ===================================================================== *)
(** ** The API client ([api.js]) *)
(* ===================================================================== *)

Module Api.

Inductive Method : Type := GET | POST.

(** A call of [api.get] or [api.post].  [url] is the path string the code
    hands to axios as first argument; what axios makes of it (joining it
    to the base address, escaping, dot segments) is not embedded, so a
    [Request] is what the code asks axios for, not the address on the
    wire. *)
Record Request := { method : Method; url : string; body : option JsVal }.

(** An [async] function: it has completed, or it has issued a request
    through axios and is suspended at the [await] of its outcome. *)
Inductive Async (A : Type) : Type :=
| Done (c : Completion A)
| Await (r : Request) (k : Completion Response -> Async A).
Arguments Done {A} c.
Arguments Await {A} r k.

Fixpoint bind {A B} (p : Async A) (f : A -> Async B) : Async B :=
  match p with
  | Done (Normal a) => f a
  | Done (Throw e) => Done (Throw e)
  | Await r k => Await r (fun o => bind (k o) f)
  end.

(** [try { p } catch (error) { h error }]. *)
Fixpoint try_catch {A} (p : Async A) (h : Thrown -> Async A) : Async A :=
  match p with
  | Done (Normal a) => Done (Normal a)
  | Done (Throw e) => h e
  | Await r k => Await r (fun o => try_catch (k o) h)
  end.

Definition ret {A} (a : A) : Async A := Done (Normal a).
Definition throw {A} (e : Thrown) : Async A := Done (Throw e).

(** [api.get(u)] and [api.post(u, b)]: the call of axios with the path
    string [u] and the body [b]. *)
Definition api_get (u : string) : Async Response :=
  Await {| method := GET; url := u; body := None |} Done.

Definition api_post (u : string) (b : option JsVal) : Async Response :=
  Await {| method := POST; url := u; body := b |} Done.

(** Running a call against a backend that answers by the request alone:
    the requests issued, in order, and the completion the caller
    observes.  This is every run of a call that issues at most one
    request; for a call that issues several, [run_from] below lets every
    answer differ. *)
Fixpoint run {A} (net : Request -> Completion Response) (p : Async A)
  : list Request * Completion A :=
  match p with
  | Done c => ([], c)
  | Await r k => let '(sent, c) := run net (k (net r)) in (r :: sent, c)
  end.

(** Running a call against any backend: [net i] answers the request
    number [i] of the run, so two equal requests can be answered
    differently.  The run starts at request number [n]. *)
Fixpoint run_from {A} (net : nat -> Request -> Completion Response) (n : nat) (p : Async A)
  : list Request * Completion A :=
  match p with
  | Done c => ([], c)
  | Await r k => let '(sent, c) := run_from net (S n) (k (net n r)) in (r :: sent, c)
  end.

(** The call issues at most one request before it completes. *)
Definition single_request {A} (p : Async A) : Prop :=
  match p with
  | Done _ => True
  | Await _ k => forall o, exists c, k o = Done c
  end.

(** The requests a call has in flight before anything is answered. *)
Definition issued {A} (p : Async A) : list Request :=
  match p with
  | Done _ => []
  | Await r _ => [r]
  end.

(** The call after the outcome [o] of its pending request arrives. *)
Definition resume {A} (p : Async A) (o : Completion Response) : Async A :=
  match p with
  | Done c => Done c
  | Await _ k => k o
  end.

(** *** encodeURIComponent, on the UTF-8 bytes of a well-formed string *)

(** A string is the sequence of the UTF-8 bytes of its text.  Text with a
    lone surrogate has no such sequence; on it [encodeURIComponent] throws
    a URIError, which is outside the embedding. *)

Definition unreserved (c : ascii) : bool :=
  let n := nat_of_ascii c in
  ((65 <=? n) && (n <=? 90))%nat || ((97 <=? n) && (n <=? 122))%nat
  || ((48 <=? n) && (n <=? 57))%nat
  || bool_decide (c ∈ ["-"; "_"; "."; "!"; "~"; "*"; "'"; "("; ")"]%char).

Definition hex_digit (n : nat) : ascii :=
  ascii_of_nat (if (n <? 10)%nat then 48 + n else 55 + n).

Fixpoint encodeURIComponent (s : string) : string :=
  match s with
  | EmptyString => EmptyString
  | String c rest =>
      if unreserved c then String c (encodeURIComponent rest)
      else
        let n := nat_of_ascii c in
        String "%" (String (hex_digit (n / 16)) (String (hex_digit (n mod 16))
          (encodeURIComponent rest)))
  end.

(** *** Rainfall series predictions *)

Definition isArray (v : JsVal) : bool :=
  match v with JArr _ => true | _ => false end.

(** [v.length !== 15] for a value that may or may not be an array. *)
Definition length_is_not_15 (v : JsVal) : bool :=
  match v with
  | JArr items => negb (bool_decide (length items = 15%nat))
  | _ => true
  end.

Definition invalid_series (rainfallData : JsVal) : bool :=
  negb (isArray rainfallData) || length_is_not_15 rainfallData.

(** In the words of the specification: an array of exactly 15 values. *)
Definition series_of_15 (v : JsVal) : Prop :=
  exists items, v = JArr items /\ length items = 15%nat.

Definition series_message : string :=
  "Rainfall data must be an array of exactly 15 values".

(** [error.response.data?.detail || error.response.data?.message ||
    "Unknown server error"]. *)
Definition server_message (response : Response) : JsVal :=
  or (or (get_opt (data response) "detail") (get_opt (data response) "message"))
     (JStr "Unknown server error").

(** The [catch] block shared, up to the 503 text and the address in the
    connection text, by [predictFloodRisk] and
    [predictFloodRiskWithWeather]. *)
Definition translate (unavailable cannot_connect : string) (error : Thrown) : Thrown :=
  match response_of error with
  | Some response =>
      let message := server_message response in
      if bool_decide (status response = 503%nat) then Error [Lit unavailable]
      else if bool_decide (status response = 400%nat)
           then Error [Lit "Invalid request: "; Interp message]
           else Error [Lit "Server error ("; Lit (pretty (status response));
                       Lit "): "; Interp message]
  | None =>
      if request_of error then Error [Lit cannot_connect]
      else Error (Lit "Request failed: " :: message_of error)
  end.

Definition predictFloodRisk (rainfallData : JsVal) : Async JsVal :=
  try_catch
    (if invalid_series rainfallData then throw (Error [Lit series_message])
     else bind (api_post "/predict" (Some (JObj [("rainfall_values"%string, rainfallData)])))
               (fun response => ret (data response)))
    (fun error =>
       throw (translate
         "Model not loaded on server. Please check server logs."
         "Cannot connect to backend server. Make sure your FastAPI server is running on http://127.0.0.1:8000"
         error)).

Definition predictFloodRiskSimple (rainfallData : JsVal) : Async JsVal :=
  try_catch
    (if invalid_series rainfallData then throw (Error [Lit series_message])
     else bind (api_post "/predict-simple" (Some rainfallData))
               (fun response => ret (data response)))
    (fun error => throw error).

(** A parameter with a default: [undefined] takes the default. *)
Definition default_to (d v : JsVal) : JsVal :=
  match v with JUndefined => d | _ => v end.

Definition not_null (v : JsVal) : bool :=
  match v with JNull => false | _ => true end.

Definition predictFloodRiskWithWeather (rainfallData lat lon useForecast : JsVal)
  : Async JsVal :=
  let rainfallData := default_to JNull rainfallData in
  let lat := default_to JNull lat in
  let lon := default_to JNull lon in
  let useForecast := default_to (JBool true) useForecast in
  try_catch
    (if truthy rainfallData && invalid_series rainfallData
     then throw (Error [Lit series_message])
     else
       let requestBody :=
         (if truthy rainfallData
          then [("rainfall_data"%string, JObj [("rainfall_values"%string, rainfallData)])]
          else [])
         ++ (if not_null lat then [("lat"%string, lat)] else [])
         ++ (if not_null lon then [("lon"%string, lon)] else [])
         ++ [("use_forecast"%string, useForecast)] in
       bind (api_post "/predict-with-weather" (Some (JObj requestBody)))
            (fun response => ret (data response)))
    (fun error =>
       throw (translate
         "Weather service not available. Please check API configuration."
         "Cannot connect to backend server. Make sure your FastAPI server is running."
         error)).

(** *** Ward endpoints *)

(** The request of the two ward prediction calls and of the bulk call. *)
Definition ward_prediction_request (path : string) : Request :=
  {| method := POST; url := "/predict/ward/" +:+ path; body := None |}.

Definition all_wards_request : Request :=
  {| method := GET; url := "/predict/all-wards"; body := None |}.

(** [error.response?.status === n]. *)
Definition status_is (error : Thrown) (n : nat) : bool :=
  match response_of error with
  | Some response => bool_decide (status response = n)
  | None => false
  end.

Definition predictSingleWard (wardId : string) : Async JsVal :=
  try_catch
    (bind (api_post ("/predict/ward/" +:+ wardId) None)
          (fun response => ret (data response)))
    (fun error => throw error).

Definition getWardFloodPrediction (wardCode : string) : Async JsVal :=
  try_catch
    (let encodedWardCode := encodeURIComponent wardCode in
     bind (api_post ("/predict/ward/" +:+ encodedWardCode) None)
          (fun response => ret (data response)))
    (fun error =>
       if status_is error 503
       then throw (Error [Lit "Flood prediction models not initialized. Please check server status."])
       else if status_is error 404
       then throw (Error [Lit ("Weather data not available for ward " +:+ wardCode)])
       else if status_is error 500
       then throw (Error [Lit ("Prediction error for ward " +:+ wardCode +:+ ". Please try again.")])
       else throw error).

Definition getAllWardsFloodPrediction : Async JsVal :=
  try_catch
    (bind (api_get "/predict/all-wards") (fun response => ret (data response)))
    (fun error =>
       if status_is error 503
       then throw (Error [Lit "Flood prediction models not initialized. Please check server status."])
       else throw error).

Definition getWardCurrentWeather (wardCode : string) : Async JsVal :=
  try_catch
    (bind (api_get ("/weather/current/" +:+ wardCode)) (fun response => ret (data response)))
    (fun error =>
       if status_is error 503
       then throw (Error [Lit "Weather service not initialized."])
       else throw error).

(** *** Helpers for the user interface *)

(** [getRiskLevel(probability)].  The three comparisons convert their left
    operand with ToNumber; the conversion is a function of the value, so it
    is done once. *)
Definition getRiskLevel (probability : JsVal) : option string :=
  n ← ToNumber probability;
  Some (if num_ge n (Fin (dec 7 10)) then "Critical"
        else if num_ge n (Fin (dec 3 10)) then "High"
        else if num_ge n (Fin (dec 1 10)) then "Medium"
        else "Low")%string.

(** [formatFloodPrediction(prediction)].  [now] is what
    [new Date().toISOString()] would return at the time of the call. *)
Definition formatFloodPrediction (now : string) (prediction : JsVal) : Completion JsVal :=
  if negb (truthy prediction) then Normal JNull
  else
    random_forest ← get prediction "random_forest";
    let randomForest := or random_forest (JObj []) in
    combined_assessment ← get prediction "combined_assessment";
    let combinedAssessment := or combined_assessment (JObj []) in
    bayesian_probability ← get prediction "bayesian_probability";
    let bayesianProbability := or bayesian_probability (num 0) in
    ward_risk_zone ← get prediction "ward_risk_zone";
    let wardRiskZone := or ward_risk_zone (JStr "Unknown") in
    ward_code ← get prediction "ward_code";
    ward_name ← get prediction "ward_name";
    flood_risk_level ← get randomForest "flood_risk_level";
    will_flood ← get randomForest "will_flood";
    risk_probabilities ← get randomForest "risk_probabilities";
    high_risk ← get combinedAssessment "high_risk";
    timestamp ← get prediction "timestamp";
    weather_data ← get prediction "weather_data";
    Normal (JObj
      [ ("wardCode", ward_code);
        ("wardName", ward_name);
        ("riskZone", wardRiskZone);
        ("riskLevel", or flood_risk_level (num 0));
        ("willFlood", or will_flood (JBool false));
        ("riskProbabilities", or risk_probabilities (JObj []));
        ("bayesianProbability", bayesianProbability);
        ("highRisk", or high_risk (JBool false));
        ("confidence", or (get_opt combinedAssessment "confidence") (JStr "Medium"));
        ("timestamp", or timestamp (JStr now));
        ("weatherData", or weather_data (JObj [])) ]%string).

(** The fields of the formatted record that carry risk information. *)
Definition formatted_fields : list string :=
  [ "riskZone"; "riskLevel"; "willFlood"; "riskProbabilities"; "bayesianProbability";
    "highRisk"; "confidence"; "timestamp"; "weatherData" ]%string.

End Api.

(* ===================================================================== *)
(** ** The statistics cards ([StatsCards.js]) *)
(* ===================================================================== *)

Module StatsCards.

(** [x.toFixed(1)]: for a double of size below [10^21], the integer nearest
    to ten times its value, the larger one on a tie, printed with one
    decimal.  Beyond that bound the result is the exponent notation of the
    double: [None]. *)
Definition toFixed1 (x : JsNum) : option string :=
  match x with
  | NaN => Some "NaN"%string
  | Fin q =>
      let q := binary64 q in
      let negative := bool_decide (q < 0) in
      let a := if negative then - q else q in
      if infinite q then Some (if negative then "-Infinity" else "Infinity")%string
      else if bool_decide (Q2Qc (inject_Z (10 ^ 21)) ≤ a) then None
      else
        let n := Qfloor (this a * inject_Z 10 + (1 # 2))%Q in
        Some ((if negative then "-" else "")
              +:+ pretty (n / 10)%Z +:+ "." +:+ pretty (n mod 10)%Z)%string
  end.

Record Stats := {
  totalWards : nat;
  lowRisk : nat;
  mediumRisk : nat;
  highRisk : nat;
  floodExpected : nat;
  avgBayesianProb : option string
}.

(** The counters of [calculateStats] during its [forEach].  The running sum
    is [None] once [+=] has met a string, an array or an object, where it
    concatenates text instead of adding. *)
Record Counters := {
  c_low : nat;
  c_medium : nat;
  c_high : nat;
  c_flood : nat;
  c_sum : option JsNum
}.

Definition zero : Counters :=
  {| c_low := 0; c_medium := 0; c_high := 0; c_flood := 0; c_sum := Some (Fin 0) |}.

(** [sum += v]. *)
Definition plus_assign (sum : option JsNum) (v : JsVal) : option JsNum :=
  s ← sum; n ← ToNumber v; Some (num_add s n).

Definition count_low (c : Counters) : Counters :=
  {| c_low := S (c_low c); c_medium := c_medium c; c_high := c_high c;
     c_flood := c_flood c; c_sum := c_sum c |}.

Definition count_medium (c : Counters) : Counters :=
  {| c_low := c_low c; c_medium := S (c_medium c); c_high := c_high c;
     c_flood := c_flood c; c_sum := c_sum c |}.

Definition count_high (c : Counters) : Counters :=
  {| c_low := c_low c; c_medium := c_medium c; c_high := S (c_high c);
     c_flood := c_flood c; c_sum := c_sum c |}.

Definition count_flood (c : Counters) : Counters :=
  {| c_low := c_low c; c_medium := c_medium c; c_high := c_high c;
     c_flood := S (c_flood c); c_sum := c_sum c |}.

Definition add_probability (v : JsVal) (c : Counters) : Counters :=
  {| c_low := c_low c; c_medium := c_medium c; c_high := c_high c;
     c_flood := c_flood c; c_sum := plus_assign (c_sum c) v |}.

(** One call of the [forEach] callback: the [switch] on the risk level, the
    flood count and the running sum. *)
Definition visit (c : Counters) (prediction : JsVal) : Completion Counters :=
  riskLevel ← get prediction "riskLevel";
  let c :=
    if strict_eq_num riskLevel 0 then count_low c
    else if strict_eq_num riskLevel 1 then count_medium c
    else if strict_eq_num riskLevel 2 then count_high c
    else c in
  willFlood ← get prediction "willFlood";
  let c := if truthy willFlood then count_flood c else c in
  bayesianProbability ← get prediction "bayesianProbability";
  Normal (add_probability (or bayesianProbability (num 0)) c).

Fixpoint forEach (values : list JsVal) (c : Counters) : Completion Counters :=
  match values with
  | [] => Normal c
  | prediction :: rest => c' ← visit c prediction; forEach rest c'
  end.

Definition of_nat (n : nat) : JsNum := Fin (Q2Qc (inject_Z (Z.of_nat n))).

Definition hundred : JsNum := Fin (Q2Qc (inject_Z 100)).

(** [calculateStats] on the values of [predictions], in the order
    [Object.values] lists them. *)
Definition calculateStats_of (values : list JsVal) : Completion Stats :=
  let totalWards := length values in
  c ← forEach values zero;
  let avg :=
    if bool_decide (0 < totalWards)%nat
    then (s ← c_sum c; Some (num_div s (of_nat totalWards)))
    else Some (Fin 0) in
  Normal {| totalWards := totalWards;
            lowRisk := c_low c;
            mediumRisk := c_medium c;
            highRisk := c_high c;
            floodExpected := c_flood c;
            avgBayesianProb := a ← avg; toFixed1 (num_mul a hundred) |}.

(** [calculateStats()] for the state [predictions], with its entries in
    the order the map lists them.  The counts and a failure do not depend
    on that order; the printed mean can, since the sum is rounded at every
    step, so what is proved about the mean is proved of
    [calculateStats_of] for every order of the values. *)
Definition calculateStats (predictions : gmap string JsVal) : Completion Stats :=
  calculateStats_of (map_to_list predictions).*2.

(** *** The statistics in the words of the specification *)

(** The arithmetic mean of a list of numbers. *)
Definition mean (xs : list Qc) : Qc :=
  foldr Qcplus 0 xs / Q2Qc (inject_Z (Z.of_nat (length xs))).

(** How many of the analysed regions satisfy [f]. *)
Definition count (f : JsVal -> bool) (values : list JsVal) : nat :=
  length (List.filter f values).

(** The region's stored risk level is [n]; the region is expected to
    flood. *)
Definition has_level (n : Z) (v : JsVal) : bool := strict_eq_num (own v "riskLevel") n.
Definition expects_flood (v : JsVal) : bool := truthy (own v "willFlood").

(** The region's stored probability is [q]; a region that stores none (or
    a falsy one) enters the mean as 0. *)
Definition stores_probability (v : JsVal) (q : Qc) : Prop :=
  nullish v = false
  /\ (own v "bayesianProbability" = JNum (Fin q)
      \/ (truthy (own v "bayesianProbability") = false /\ q = 0)).

End StatsCards.

(* ===================================================================== *)
(** ** The map ([MapComponent.js]) *)
(* ===================================================================== *)

Module MapComponent.
Import Api.

(** A GeoJSON feature of the ward boundary file: the string properties the
    component reads, and the polygon as rings of [longitude, latitude]
    positions.  [None] is an absent ([undefined] or [null]) value. *)
Record Properties := {
  ward_name_full : option string;
  name : option string;
  NAME : option string;
  ward_code : option string
}.

Definition Ring : Type := list (Qc * Qc).

Record Feature := {
  properties : Properties;
  coordinates : option (list Ring)
}.

(** [a || b] where [a] is an optional string: absent and empty are falsy. *)
Definition str_or (a : option string) (b : string) : string :=
  match a with
  | Some s => if bool_decide (s = ""%string) then b else s
  | None => b
  end.

Definition lower_ascii (c : ascii) : ascii :=
  let n := nat_of_ascii c in
  if ((65 <=? n) && (n <=? 90))%nat then ascii_of_nat (n + 32) else c.

(** [s.toLowerCase()] on the ASCII letters, which decides the comparisons
    with the ASCII words below. *)
Fixpoint toLowerCase (s : string) : string :=
  match s with
  | EmptyString => EmptyString
  | String c rest => String (lower_ascii c) (toLowerCase rest)
  end.

(** [getRiskColor(riskLevel)]: [riskLevel?.toLowerCase()] is [undefined] on
    a nullish level, and a TypeError on a value without that method. *)
Definition getRiskColor (riskLevel : JsVal) : Completion string :=
  match riskLevel with
  | JUndefined | JNull => Normal "#4285f4"%string
  | JStr s =>
      let l := toLowerCase s in
      Normal (if bool_decide (l = "low") then "#34a853"
              else if bool_decide (l = "medium") then "#fbbc04"
              else if bool_decide (l = "high") then "#ea4335"
              else if bool_decide (l = "critical") then "#ea4335"
              else "#4285f4")%string
  | _ => Throw TypeError
  end.

Record Style := {
  fillColor : string;
  weight : nat;
  opacity : nat;
  color : string;
  dashArray : string;
  fillOpacity : Qc
}.

(** [predictions[key]]: the own entry, or else the member that the object
    inherits under that name, or else [undefined]. *)
Definition entry (predictions : gmap string JsVal) (key : string) : JsVal :=
  match predictions !! key with
  | Some v => v
  | None => if bool_decide (key ∈ object_prototype_members) then inherited_member
            else JUndefined
  end.

Definition getFeatureStyle (predictions : gmap string JsVal) (selectedWard : option string)
    (feature : Feature) : Completion Style :=
  let p := properties feature in
  let wardName := str_or (ward_name_full p) (str_or (name p) (str_or (NAME p) "Unknown")) in
  let prediction := entry predictions wardName in
  let isSelected := bool_decide (selectedWard = Some wardName) in
  fill ← (if truthy prediction
           then risk_level ← get prediction "risk_level"; getRiskColor risk_level
           else Normal "#f8f9fa"%string);
  Normal {| fillColor := fill;
            weight := if isSelected then 4 else 2;
            opacity := 1;
            color := if isSelected then "#007bff" else "#495057";
            dashArray := if truthy prediction then "" else "5, 5";
            fillOpacity := if truthy prediction then dec 8 10 else dec 3 10 |}.

Record Centroid := { longitude : JsNum; latitude : JsNum }.

(** The loop [x += polygon[i][0]; y += polygon[i][1]]. *)
Fixpoint sum_ring (polygon : Ring) (x y : JsNum) : JsNum * JsNum :=
  match polygon with
  | [] => (x, y)
  | p :: rest => sum_ring rest (num_add x (Fin p.1)) (num_add y (Fin p.2))
  end.

Definition calculateCentroid (coordinates : option (list Ring)) : option Centroid :=
  match coordinates with
  | None => None
  | Some [] => None
  | Some (polygon :: _) =>
      let '(x, y) := sum_ring polygon (Fin 0) (Fin 0) in
      let n := StatsCards.of_nat (length polygon) in
      Some {| longitude := num_div x n; latitude := num_div y n |}
  end.

Definition centroid_value (c : Centroid) : JsVal :=
  JObj [("longitude", JNum (longitude c)); ("latitude", JNum (latitude c))]%string.

(** The three-way split on the tree ensemble's level, spelled [hi], [mid],
    [lo] at each use. *)
Definition by_level (flood_risk_level : JsVal) (hi mid lo : string) : JsVal :=
  JStr (if strict_eq_num flood_risk_level 2 then hi
        else if strict_eq_num flood_risk_level 1 then mid else lo).

(** [bayesian_network.risk_level] of the object built by the click
    handler. *)
Definition bayesian_risk_level (bayesian_probability : JsVal) : option string :=
  n ← ToNumber (or bayesian_probability (num 0));
  Some (if num_gt n (Fin (dec 7 10)) then "High"
        else if num_gt n (Fin (dec 3 10)) then "Medium"
        else "Low")%string.

(** The object the click handler stores for a ward.  Three of its fields
    are not part of the stored value here: [random_forest.flood_probability]
    (a [Math.max] over converted values), [bayesian_network.risk_level]
    (the comparison above, defined on numbers only) and the area, perimeter
    and object id of [wardDetails] (parsed and printed floats). *)
Definition enhancedPrediction (prediction : JsVal) (wardName wardCode : string)
    (coordinates : Centroid) : Completion JsVal :=
  bayesian_probability ← get prediction "bayesian_probability";
  random_forest ← get prediction "random_forest";
  combined_assessment ← get prediction "combined_assessment";
  ward_risk_zone ← get prediction "ward_risk_zone";
  weather_data ← get prediction "weather_data";
  timestamp ← get prediction "timestamp";
  let flood_risk_level := get_opt random_forest "flood_risk_level" in
  let confidence := or (get_opt combined_assessment "confidence") (JStr "Medium") in
  let high_risk := truthy (get_opt combined_assessment "high_risk") in
  Normal (JObj
    [ ("flood_risk_probability", bayesian_probability);
      ("risk_level", by_level flood_risk_level "high" "medium" "low");
      ("confidence", confidence);
      ("will_flood", or (get_opt random_forest "will_flood") (JBool false));
      ("ward_risk_zone", ward_risk_zone);
      ("weather_data", weather_data);
      ("timestamp", timestamp);
      ("overall_assessment", JObj
         [ ("combined_risk_level", JStr (if high_risk then "High" else "Low"));
           ("combined_flood_probability", or bayesian_probability (num 0));
           ("models_used", JStr "Random Forest + Bayesian Network + K-means");
           ("recommendation", JStr
              (if high_risk
               then "High flood risk detected. Avoid travel to this area if possible."
               else "Low flood risk. Normal conditions expected.")) ]);
      ("random_forest", JObj
         [ ("risk_level", by_level flood_risk_level "High" "Medium" "Low");
           ("confidence", confidence) ]);
      ("bayesian_network", JObj
         [ ("flood_probability", or bayesian_probability (num 0)) ]);
      ("cluster_analysis", JObj
         [ ("cluster", ward_risk_zone);
           ("cluster_risk_level", ward_risk_zone) ]);
      ("wardDetails", JObj
         [ ("name", JStr wardName);
           ("code", JStr wardCode);
           ("coordinates", centroid_value coordinates) ]) ]%string).

End MapComponent.

(* ===================================================================== *)
(** ** The ward demo ([WardMapDemo.js]) *)
(* ===================================================================== *)

Module WardMapDemo.


End WardMapDemo.

(* ===================================================================== *)
(** ** The application state ([App.js], [Dashboard.js]) and its events *)
(* ===================================================================== *)

Module App.
Import Api MapComponent.

(** What the map hands to [onWardCoordinatesChange]. *)
Record WardCoordinates := {
  wc_latitude : JsNum;
  wc_longitude : JsNum;
  wc_wardName : string;
  wc_wardCode : string
}.

(** The local state of [FloodPredictionPanel]. *)
Record Panel := {
  prediction : JsVal;
  weather : JsVal;
  panel_loading : bool;
  panel_error : option (list Part)
}.

(** One element of a [Promise.all]: still running, or fulfilled. *)
Inductive Slot : Type :=
| Running (call : Async JsVal)
| Fulfilled (v : JsVal).

(** A suspended [async] function, with the variables it closes over. *)
Inductive Waiter : Type :=
| MapClick (wardName wardCode : string) (coordinates : Centroid) (call : Async JsVal)
| PanelLoad (wardCode : string) (predictionData weatherData : Slot)
| LoadAll (call : Async JsVal).

(** [predictions], [selectedWard], [loading] and [error] are the state of
    [App]; [wardCoordinates] is the state of [Dashboard]; [notification]
    is the state of [MapComponent]; [inflight] holds the suspended
    handlers by the number of their call, and [sent] lists every HTTP
    request issued so far, oldest first. *)
Record AppState := {
  predictions : gmap string JsVal;
  selectedWard : option string;
  loading : bool;
  error : option (list Part);
  wardCoordinates : option WardCoordinates;
  notification : list Part;
  panel : Panel;
  inflight : gmap nat Waiter;
  next : nat;
  sent : list Request
}.

Definition initial : AppState :=
  {| predictions := ∅; selectedWard := None; loading := false; error := None;
     wardCoordinates := None; notification := [];
     panel := {| prediction := JNull; weather := JNull; panel_loading := false;
                 panel_error := None |};
     inflight := ∅; next := 0; sent := [] |}.

Definition setPredictions (v : gmap string JsVal) (st : AppState) : AppState :=
  {| predictions := v; selectedWard := selectedWard st; loading := loading st;
     error := error st; wardCoordinates := wardCoordinates st;
     notification := notification st; panel := panel st; inflight := inflight st;
     next := next st; sent := sent st |}.

Definition setSelectedWard (v : option string) (st : AppState) : AppState :=
  {| predictions := predictions st; selectedWard := v; loading := loading st;
     error := error st; wardCoordinates := wardCoordinates st;
     notification := notification st; panel := panel st; inflight := inflight st;
     next := next st; sent := sent st |}.

Definition setLoading (v : bool) (st : AppState) : AppState :=
  {| predictions := predictions st; selectedWard := selectedWard st; loading := v;
     error := error st; wardCoordinates := wardCoordinates st;
     notification := notification st; panel := panel st; inflight := inflight st;
     next := next st; sent := sent st |}.

Definition setError (v : option (list Part)) (st : AppState) : AppState :=
  {| predictions := predictions st; selectedWard := selectedWard st; loading := loading st;
     error := v; wardCoordinates := wardCoordinates st;
     notification := notification st; panel := panel st; inflight := inflight st;
     next := next st; sent := sent st |}.

Definition setWardCoordinates (v : option WardCoordinates) (st : AppState) : AppState :=
  {| predictions := predictions st; selectedWard := selectedWard st; loading := loading st;
     error := error st; wardCoordinates := v;
     notification := notification st; panel := panel st; inflight := inflight st;
     next := next st; sent := sent st |}.

Definition setNotification (v : list Part) (st : AppState) : AppState :=
  {| predictions := predictions st; selectedWard := selectedWard st; loading := loading st;
     error := error st; wardCoordinates := wardCoordinates st;
     notification := v; panel := panel st; inflight := inflight st;
     next := next st; sent := sent st |}.

Definition setPanel (v : Panel) (st : AppState) : AppState :=
  {| predictions := predictions st; selectedWard := selectedWard st; loading := loading st;
     error := error st; wardCoordinates := wardCoordinates st;
     notification := notification st; panel := v; inflight := inflight st;
     next := next st; sent := sent st |}.

Definition setInflight (v : gmap nat Waiter) (st : AppState) : AppState :=
  {| predictions := predictions st; selectedWard := selectedWard st; loading := loading st;
     error := error st; wardCoordinates := wardCoordinates st;
     notification := notification st; panel := panel st; inflight := v;
     next := next st; sent := sent st |}.

(** Issue the requests [rs]. *)
Definition send (rs : list Request) (st : AppState) : AppState :=
  {| predictions := predictions st; selectedWard := selectedWard st; loading := loading st;
     error := error st; wardCoordinates := wardCoordinates st;
     notification := notification st; panel := panel st; inflight := inflight st;
     next := next st; sent := sent st ++ rs |}.

(** Suspend a handler under a fresh number. *)
Definition suspend (w : Waiter) (st : AppState) : AppState :=
  {| predictions := predictions st; selectedWard := selectedWard st; loading := loading st;
     error := error st; wardCoordinates := wardCoordinates st;
     notification := notification st; panel := panel st;
     inflight := <[next st := w]> (inflight st);
     next := S (next st); sent := sent st |}.

Definition settled (id : nat) (st : AppState) : AppState :=
  setInflight (delete id (inflight st)) st.

(** *** Selecting a ward *)

(** [loadWardPrediction(wardCode)] of the panel, up to its [await]. *)
Definition loadWardPrediction (wardCode : string) (st : AppState) : AppState :=
  let st := setPanel {| prediction := prediction (panel st); weather := weather (panel st);
                        panel_loading := true; panel_error := None |} st in
  let predictionData := getWardFloodPrediction wardCode in
  let weatherData := getWardCurrentWeather wardCode in
  suspend (PanelLoad wardCode (Running predictionData) (Running weatherData))
          (send (issued predictionData ++ issued weatherData) st).

(** [fetchLiveWeatherPrediction()] of [WardWeatherDetails], up to its
    [await]; what follows the [await] changes only that component's own
    display. *)
Definition fetchLiveWeatherPrediction (selected : string) (st : AppState) : AppState :=
  send (issued (getWardCurrentWeather selected) ++ issued (getWardFloodPrediction selected)) st.

Definition nonempty (w : option string) : option string :=
  match w with
  | Some s => if bool_decide (s = ""%string) then None else Some s
  | None => None
  end.

(** The effects React runs after the render that follows a handler.  The
    state updates of one handler are applied together (React batches them),
    so there is one render, in which [selectedWard] went from its value in
    [before] to its value in [after].  [WardWeatherDetails] depends on
    [selectedWard] and [wardCoordinates] ([moved] tells whether the map
    handed over a new coordinates object), [FloodPredictionPanel] on
    [selectedWard]; their effects run in the order [Dashboard] renders
    them. *)
Definition effects (before : option string) (moved : bool) (after : AppState) : AppState :=
  let changed := negb (bool_decide (before = selectedWard after)) in
  match nonempty (selectedWard after) with
  | None => after
  | Some selected =>
      let after := if changed || moved then fetchLiveWeatherPrediction selected after
                   else after in
      if changed then loadWardPrediction selected after else after
  end.

(** The [click] handler of a ward layer, up to its [await], followed by the
    effects of the render it causes.  [Dashboard] always passes
    [onWardCoordinatesChange], so the handler reads [coordinates.latitude];
    on a [null] centroid that read is a TypeError and the handler ends
    there, after [setSelectedWard] and [setLoading(true)]. *)
Definition click (feature : Feature) (st : AppState) : AppState :=
  let p := properties feature in
  let wardName := str_or (ward_name_full p) "Unknown Ward" in
  let wardCode := str_or (ward_code p) "N/A" in
  let st1 := setLoading true (setSelectedWard (Some wardName) st) in
  match calculateCentroid (coordinates feature) with
  | None => effects (selectedWard st) false st1
  | Some c =>
      let st2 := setWardCoordinates
                   (Some {| wc_latitude := latitude c; wc_longitude := longitude c;
                            wc_wardName := wardName; wc_wardCode := wardCode |}) st1 in
      let call := predictSingleWard wardCode in
      effects (selectedWard st) true
              (suspend (MapClick wardName wardCode c call) (send (issued call) st2))
  end.

(** The click handler has run to its [await]: it is suspended under the
    number the state had to give. *)
Definition click_suspended (before after : AppState) : Prop :=
  exists wardName wardCode c call,
    inflight after !! next before = Some (MapClick wardName wardCode c call).

(** *** Loading every ward *)

(** The key under which the assignment [obj[v] = ...] stores an own
    property.  A number or an array becomes a key through the printing of
    doubles, and an assignment to [__proto__] sets the prototype of the
    object instead of a property; both are outside the embedding: [None]. *)
Definition ToPropertyKey (v : JsVal) : option string :=
  match v with
  | JStr s => if bool_decide (s = "__proto__"%string) then None else Some s
  | JUndefined => Some "undefined"
  | JNull => Some "null"
  | JBool true => Some "true"
  | JBool false => Some "false"
  | JNum NaN => Some "NaN"
  | JObj _ => Some "[object Object]"
  | JNum (Fin _) | JArr _ => None
  end%string.

(** The [forEach] of [loadAllPredictions]; the clock is read once for the
    whole event. *)
Fixpoint format_all (now : string) (items : list JsVal) (acc : gmap string JsVal)
  : option (Completion (gmap string JsVal)) :=
  match items with
  | [] => Some (Normal acc)
  | item :: rest =>
      match (formatted ← formatFloodPrediction now item;
             wardCode ← get formatted "wardCode";
             Normal (formatted, wardCode)) with
      | Throw e => Some (Throw e)
      | Normal (formatted, wardCode) =>
          key ← ToPropertyKey wardCode;
          format_all now rest (<[key := formatted]> acc)
      end
  end.

(** [response.predictions.forEach(...)]: a TypeError unless [predictions]
    is an array. *)
Definition formattedPredictions (now : string) (response : JsVal)
  : option (Completion (gmap string JsVal)) :=
  match get response "predictions" with
  | Throw e => Some (Throw e)
  | Normal (JArr items) => format_all now items ∅
  | Normal _ => Some (Throw TypeError)
  end.

(** [loadAllPredictions()], up to its [await]. *)
Definition loadAllPredictions (st : AppState) : AppState :=
  let st := setError None (setLoading true st) in
  let call := getAllWardsFloodPrediction in
  suspend (LoadAll call) (send (issued call) st).

(** *** The answers of the backend *)

Definition setPanelResult (formatted weatherData : JsVal) (st : AppState) : AppState :=
  setPanel {| prediction := formatted; weather := weatherData;
              panel_loading := panel_loading (panel st);
              panel_error := panel_error (panel st) |} st.

Definition setPanelError (message : list Part) (st : AppState) : AppState :=
  setPanel {| prediction := prediction (panel st); weather := weather (panel st);
              panel_loading := panel_loading (panel st);
              panel_error := Some message |} st.

Definition setPanelLoading (v : bool) (st : AppState) : AppState :=
  setPanel {| prediction := prediction (panel st); weather := weather (panel st);
              panel_loading := v; panel_error := panel_error (panel st) |} st.

(** The click handler from its [await] to its end: the [try] body stores
    the enhanced prediction under the ward's name, the [catch] block posts
    a notification, [finally] clears the loading flag. *)
Definition click_resumed (wardName wardCode : string) (coordinates : Centroid)
    (r : Completion JsVal) (st : AppState) : AppState :=
  let st :=
    match (prediction ← r; enhancedPrediction prediction wardName wardCode coordinates) with
    | Normal enhanced => setPredictions (<[wardName := enhanced]> (predictions st)) st
    | Throw e =>
        setNotification
          (Lit "Error connecting to backend: " :: message_of e
             ++ [Lit ". Make sure the server is running."]) st
    end in
  setLoading false st.

(** [loadWardPrediction] from its [await] to its end.  [onPredictionUpdate]
    is the merge [Dashboard] passes:
    [setPredictions(prev => ({...prev, [wardCode]: prediction}))]. *)
Definition panel_resumed (now : string) (wardCode : string)
    (r : Completion (JsVal * JsVal)) (st : AppState) : AppState :=
  let st :=
    match ('(predictionData, weatherData) ← r;
           formatted ← formatFloodPrediction now predictionData;
           Normal (formatted, weatherData)) with
    | Normal (formatted, weatherData) =>
        let st := setPanelResult formatted weatherData st in
        setPredictions (<[wardCode := formatted]> (predictions st)) st
    | Throw e => setPanelError (message_of e) st
    end in
  setPanelLoading false st.

(** [loadAllPredictions] from its [await] to its end: on success the state
    becomes the freshly built object. *)
Definition loadAll_resumed (now : string) (r : Completion JsVal) (st : AppState)
  : option AppState :=
  match r with
  | Throw e => Some (setLoading false (setError (Some (message_of e)) st))
  | Normal response =>
      built ← formattedPredictions now response;
      match built with
      | Normal formatted => Some (setLoading false (setPredictions formatted st))
      | Throw e => Some (setLoading false (setError (Some (message_of e)) st))
      end
  end.

(** The outcome [o] of the request of suspended handler [id] arrives;
    [second] selects the second element of a [Promise.all], and [now] is
    the clock at that moment.  An answer for a handler that is gone, or for
    an element already fulfilled, changes nothing.  The result is [None]
    only where [loadAllPredictions] leaves the embedding (see
    [ToPropertyKey]). *)
Definition settle (id : nat) (second : bool) (o : Completion Response) (now : string)
    (st : AppState) : option AppState :=
  match inflight st !! id with
  | None => Some st
  | Some (MapClick wardName wardCode coordinates call) =>
      match resume call o with
      | Done r => Some (click_resumed wardName wardCode coordinates r (settled id st))
      | call' =>
          Some (setInflight (<[id := MapClick wardName wardCode coordinates call']>
                               (inflight st)) st)
      end
  | Some (PanelLoad wardCode predictionData weatherData) =>
      match (if second then weatherData else predictionData) with
      | Fulfilled _ => Some st
      | Running call =>
          match resume call o with
          | Done (Throw e) => Some (panel_resumed now wardCode (Throw e) (settled id st))
          | Done (Normal v) =>
              match (if second then predictionData else Fulfilled v),
                    (if second then Fulfilled v else weatherData) with
              | Fulfilled p, Fulfilled w =>
                  Some (panel_resumed now wardCode (Normal (p, w)) (settled id st))
              | p, w => Some (setInflight (<[id := PanelLoad wardCode p w]> (inflight st)) st)
              end
          | call' =>
              let p := if second then predictionData else Running call' in
              let w := if second then Running call' else weatherData in
              Some (setInflight (<[id := PanelLoad wardCode p w]> (inflight st)) st)
          end
      end
  | Some (LoadAll call) =>
      match resume call o with
      | Done r => loadAll_resumed now r (settled id st)
      | call' => Some (setInflight (<[id := LoadAll call']> (inflight st)) st)
      end
  end.

Inductive Event : Type :=
| Click (feature : Feature)
| LoadAllPredictions
| Settle (id : nat) (second : bool) (o : Completion Response) (now : string).

(** No bulk load awaits its answer. *)
Definition no_bulk_load (st : AppState) : Prop :=
  forall id call, inflight st !! id <> Some (LoadAll call).

(** The event is the answer to a bulk load. *)
Definition answers_bulk_load (st : AppState) (ev : Event) : Prop :=
  match ev with
  | Settle id _ _ _ => exists call, inflight st !! id = Some (LoadAll call)
  | _ => False
  end.

Definition step (st : AppState) (ev : Event) : option AppState :=
  match ev with
  | Click feature => Some (click feature st)
  | LoadAllPredictions => Some (loadAllPredictions st)
  | Settle id second o now => settle id second o now st
  end.

Fixpoint steps (st : AppState) (evs : list Event) : option AppState :=
  match evs with
  | [] => Some st
  | ev :: rest => st' ← step st ev; steps st' rest
  end.




End App.

(* ===================================================================== *)
(** ** Scenarios used by the examples below *)
(* ===================================================================== *)

Module Scenario.
Import Api MapComponent App.

Definition square : list Ring :=
  [[(Q2Qc 0, Q2Qc 0); (Q2Qc 2, Q2Qc 0); (Q2Qc 2, Q2Qc 2); (Q2Qc 0, Q2Qc 2)]].

Definition ward (code : string) (rings : option (list Ring)) : Feature :=
  {| properties := {| ward_name_full := Some code; name := None; NAME := None;
                      ward_code := Some code |};
     coordinates := rings |}.

Definition ward_A : Feature := ward "A" (Some square).

(** A ward prediction with tree-ensemble level 2 and probability 0.82. *)
Definition critical_prediction (will_flood : JsVal) : JsVal :=
  JObj [ ("ward_code", JStr "H/E");
         ("random_forest", JObj [ ("flood_risk_level", num 2);
                                  ("will_flood", will_flood) ]);
         ("bayesian_probability", JNum (Fin (dec 82 100)));
         ("timestamp", JStr "2025-07-01T10:00:00.000Z") ]%string.

Definition ok (d : JsVal) : Completion Response := Normal {| status := 200; data := d |}.

Definition network_down : Completion Response :=
  Throw (AxiosError None true "Network Error").

Definition noon : string := "2025-07-01T12:00:00.000Z".
Definition midnight : string := "2025-07-02T00:00:00.000Z".

(** The formatted record of that prediction, and a state that holds it. *)
Definition critical_formatted : JsVal :=
  match formatFloodPrediction noon (critical_prediction (JBool true)) with
  | Normal v => v
  | Throw _ => JNull
  end.

Definition one_critical_region : gmap string JsVal := {[ "H/E"%string := critical_formatted ]}.

(** Three analysed regions: one of level 0 and two of level 2. *)
Definition region (level : Z) (p : Qc) : JsVal :=
  JObj [ ("riskLevel", num level); ("willFlood", JBool false);
         ("bayesianProbability", JNum (Fin p)) ]%string.

Definition low_high_high : gmap string JsVal :=
  {[ "A"%string := region 0 (dec 5 100); "B"%string := region 2 (dec 5 10);
     "C"%string := region 2 (dec 6 10) ]}.




End Scenario.

(* ===================================================================== *)
(** ** Colours and labels ([api.js], [FloodPredictionPanel.js]) *)
(* ===================================================================== *)

Module Display.
Import Api MapComponent.

(** [getRiskColor(riskLevel)] of [api.js]. *)
Definition getRiskColor (riskLevel : JsVal) : Completion string :=
  match riskLevel with
  | JUndefined | JNull => Normal "#CCCCCC"%string
  | JStr s =>
      let l := toLowerCase s in
      Normal (if bool_decide (l = "critical") then "#FF0000"
              else if bool_decide (l = "high") then "#FF6600"
              else if bool_decide (l = "medium") then "#FFFF00"
              else if bool_decide (l = "low") then "#00FF00"
              else "#CCCCCC")%string
  | _ => Throw TypeError
  end.

(** [getFloodRiskColor(riskLevel)] of [api.js]: a [switch] on 2, 1, 0. *)
Definition getFloodRiskColor (riskLevel : JsVal) : string :=
  if strict_eq_num riskLevel 2 then "#FF0000"
  else if strict_eq_num riskLevel 1 then "#FF6600"
  else if strict_eq_num riskLevel 0 then "#00FF00"
  else "#CCCCCC".

(** [v === s] for a string literal [s]. *)
Definition strict_eq_str (v : JsVal) (s : string) : bool :=
  match v with
  | JStr s' => bool_decide (s' = s)
  | _ => false
  end.

(** [getRiskZoneColor(riskZone)] of [api.js]. *)
Definition getRiskZoneColor (riskZone : JsVal) : string :=
  if strict_eq_str riskZone "Very High Risk" then "#8B0000"
  else if strict_eq_str riskZone "High Risk" then "#FF4500"
  else if strict_eq_str riskZone "Medium Risk" then "#FFD700"
  else if strict_eq_str riskZone "Low Risk" then "#32CD32"
  else "#CCCCCC".

(** [getRiskLevelText(level)] of [FloodPredictionPanel]. *)
Definition getRiskLevelText (level : JsVal) : string :=
  if strict_eq_num level 2 then "High Risk"
  else if strict_eq_num level 1 then "Medium Risk"
  else if strict_eq_num level 0 then "Low Risk"
  else "Unknown".

(** The rank of a tier of [getRiskLevel] and of the click handler. *)
Definition tier_rank (tier : string) : nat :=
  if bool_decide (tier = "Critical"%string) then 3
  else if bool_decide (tier = "High"%string) then 2
  else if bool_decide (tier = "Medium"%string) then 1
  else 0.

End Display.

(* ===================================================================== *)
(** ** Rainfall scales ([WeatherWidget.js], [WardWeatherDetails.js]) *)
(* ===================================================================== *)

Module Rainfall.

Definition gt (n : JsNum) (z : Z) : bool := num_gt n (Fin (Q2Qc (inject_Z z))).

(** [getRainfallStatus(rainfall)] of [WeatherWidget]: level and text. *)
Definition getRainfallStatus (rainfall : JsVal) : option (string * string) :=
  n ← ToNumber rainfall;
  Some (if gt n 20 then ("extreme", "Extreme")
        else if gt n 10 then ("heavy", "Heavy")
        else if gt n 2 then ("moderate", "Moderate")
        else if gt n 0 then ("light", "Light")
        else ("none", "No Rain"))%string.

(** [getRainfallIntensity(rainfall)] of [WardWeatherDetails]: text and
    class. *)
Definition getRainfallIntensity (rainfall : JsVal) : option (string * string) :=
  n ← ToNumber rainfall;
  Some (if gt n 50 then ("Extreme", "extreme")
        else if gt n 20 then ("Heavy", "heavy")
        else if gt n 10 then ("Moderate", "moderate")
        else if gt n 2 then ("Light", "light")
        else if gt n 0 then ("Drizzle", "drizzle")
        else ("No Rain", "none"))%string.

(** The texts of the two scales by severity. *)
Definition severity (text : string) : nat :=
  if bool_decide (text = "Extreme"%string) then 5
  else if bool_decide (text = "Heavy"%string) then 4
  else if bool_decide (text = "Moderate"%string) then 3
  else if bool_decide (text = "Light"%string) then 2
  else if bool_decide (text = "Drizzle"%string) then 1
  else 0.

End Rainfall.

(* ===================================================================== *)
(** ** Calls that answer every failure themselves ([api.js]) *)
(* ===================================================================== *)

Module Fallbacks.
Import Api.

Definition health_request : Request :=
  {| method := GET; url := "/health"; body := None |}.

(** [checkServerHealth()]. *)
Definition checkServerHealth : Async JsVal :=
  try_catch
    (bind (api_get "/health") (fun response => ret (data response)))
    (fun error =>
       throw (Error [Lit "Backend server is not responding. Make sure your FastAPI server is running on http://127.0.0.1:8000"])).

(** [checkFloodApiHealth()]. *)
Definition checkFloodApiHealth : Async JsVal :=
  try_catch
    (bind (api_get "/health") (fun response => ret (data response)))
    (fun error =>
       throw (Error [Lit "Flood prediction API is not responding. Make sure the server is running on http://127.0.0.1:8000"])).

Definition fallback_weather : JsVal :=
  JObj [ ("temperature", num 28);
         ("humidity", num 80);
         ("description", JStr "Overcast clouds");
         ("current", JObj [ ("rainfall", JObj [ ("last_1h", num 0) ]) ]) ]%string.

Definition default_weather_request : Request :=
  {| method := GET; url := "/weather/current/A"; body := None |}.

(** [getCurrentWeather(lat = null, lon = null)]. *)
Definition getCurrentWeather (lat lon : JsVal) : Async JsVal :=
  try_catch
    (bind (api_get "/weather/current/A") (fun response => ret (data response)))
    (fun error => ret fallback_weather).

(** [getWardCurrentStatus(wardId)]; [now] is what
    [new Date().toISOString()] would return in the catch block. *)
Definition getWardCurrentStatus (now : string) (wardId : string) : Async JsVal :=
  try_catch
    (bind (getWardFloodPrediction wardId) (fun prediction =>
       Done (combined_assessment ← get prediction "combined_assessment";
             high_risk ← get combined_assessment "high_risk";
             bayesian_probability ← get prediction "bayesian_probability";
             timestamp ← get prediction "timestamp";
             Normal (JObj
               [ ("status", JStr "current");
                 ("risk_level", JStr (if truthy high_risk then "High" else "Low"));
                 ("current_flood_probability", bayesian_probability);
                 ("last_updated", timestamp);
                 ("data_freshness", JStr "current");
                 ("recommendation", JStr
                    (if truthy high_risk
                     then "High flood risk detected. Monitor conditions closely."
                     else "Low flood risk. Normal conditions expected.")) ]%string))))
    (fun error =>
       ret (JObj
         [ ("status", JStr "no_recent_data");
           ("risk_level", JStr "Unknown");
           ("current_flood_probability", num 0);
           ("last_updated", JStr now);
           ("data_freshness", JStr "stale");
           ("recommendation", JStr "Unable to fetch current status.") ]%string)).

(** The callback of the [map] in [getRealRainfallData]:
    [item.rain ? (item.rain['3h'] || item.rain['1h'] || 0) : 0]. *)
Definition rainfall_of (item : JsVal) : Completion JsVal :=
  rain ← get item "rain";
  if truthy rain
  then r3 ← get rain "3h"; r1 ← get rain "1h"; Normal (or (or r3 r1) (num 0))
  else Normal (num 0).

Fixpoint map_items (f : JsVal -> Completion JsVal) (items : list JsVal)
  : Completion (list JsVal) :=
  match items with
  | [] => Normal []
  | item :: rest => v ← f item; vs ← map_items f rest; Normal (v :: vs)
  end.

(** [Array(15).fill(0)]. *)
Definition no_rain : JsVal := JArr (replicate 15 (num 0)).

(** The [try] body of [getRealRainfallData] after its [await]: the series
    when [forecast && forecast.list] holds, [None] when control falls out
    of the [if].  A truthy [list] that is not an array has no callable
    [slice(...).map]: a TypeError. *)
Definition series_of_forecast (forecast : JsVal) : Completion (option JsVal) :=
  if truthy forecast
  then
    list ← get forecast "list";
    if truthy list
    then
      match list with
      | JArr items =>
          rainfallData ← map_items rainfall_of (take 15 items);
          let padded := rainfallData ++ replicate (15 - length rainfallData) (num 0) in
          Normal (Some (JArr (take 15 padded)))
      | _ => Throw TypeError
      end
    else Normal None
  else Normal None.

(** [getRealRainfallData(lat, lon)] from the outcome of its
    [await getWeatherForecast(lat, lon, 5)] to its [return]. *)
Definition getRealRainfallData_resumed (forecast : Completion JsVal) : JsVal :=
  match forecast ≫= series_of_forecast with
  | Normal (Some series) => series
  | Normal None => no_rain
  | Throw _ => no_rain
  end.

End Fallbacks.

(* ===================================================================== *)
(** ** The ward tables and the demo's inputs ([api.js]) *)
(* ===================================================================== *)

Module Wards.
Import Api.

(** [MUMBAI_WARD_CODES]. *)
Definition MUMBAI_WARD_CODES : list string :=
  [ "A"; "B"; "C"; "D"; "E"; "F/N"; "F/S"; "G/N"; "G/S"; "H/E"; "H/W";
    "K/E"; "K/W"; "L"; "M/E"; "M/W"; "N"; "P/N"; "P/S"; "R/C"; "R/N"; "R/S"; "S"; "T" ]%string.

(** [WARD_NAMES]. *)
Definition WARD_NAMES : list (string * string) :=
  [ ("A", "Colaba, Churchgate"); ("B", "Masjid Bunder"); ("C", "Marine Lines");
    ("D", "Grant Road"); ("E", "Byculla, Mazgaon"); ("F/N", "Matunga");
    ("F/S", "Parel"); ("G/N", "Dadar"); ("G/S", "Worli"); ("H/E", "Santacruz East");
    ("H/W", "Bandra West"); ("K/E", "Vile Parle East"); ("K/W", "Andheri West");
    ("L", "Kurla"); ("M/E", "Mankhurd"); ("M/W", "Chembur"); ("N", "Ghatkopar");
    ("P/N", "Malad"); ("P/S", "Goregaon"); ("R/C", "Borivali"); ("R/N", "Dahisar");
    ("R/S", "Kandivali"); ("S", "Powai"); ("T", "Mulund") ]%string.

Record Place := { latitude : Qc; longitude : Qc; place_name : string }.

Definition place (lat lon : Z) (n : string) : Place :=
  {| latitude := dec lat 10000; longitude := dec lon 10000; place_name := n |}.

(** [MUMBAI_WARD_COORDINATES], in ten-thousandths of a degree. *)
Definition MUMBAI_WARD_COORDINATES : list (string * Place) :=
  [ ("A", place 189067 728147 "Colaba"); ("B", place 189322 728264 "Fort");
    ("C", place 189480 728258 "Marine Lines"); ("D", place 189696 728448 "Mazgaon");
    ("E", place 189750 728342 "Byculla"); ("F/N", place 190138 728452 "Parel");
    ("F/S", place 190008 728300 "Lower Parel"); ("G/N", place 190176 728562 "Dadar");
    ("G/S", place 190330 728570 "Mahim"); ("H/E", place 190596 728656 "Bandra East");
    ("H/W", place 190596 728295 "Bandra West"); ("K/E", place 191136 728697 "Andheri East");
    ("K/W", place 191197 728464 "Andheri West"); ("L", place 190728 728826 "Kurla");
    ("M/E", place 190330 728990 "Chembur"); ("M/W", place 190270 729500 "Trombay");
    ("N", place 190896 729081 "Ghatkopar"); ("P/N", place 191872 728495 "Malad");
    ("P/S", place 192094 728526 "Kandivali"); ("R/C", place 192307 728567 "Borivali");
    ("R/N", place 192544 728656 "Dahisar"); ("R/S", place 192094 728700 "Kandivali East");
    ("S", place 191450 729342 "Bhandup"); ("T", place 191728 729342 "Mulund") ]%string.

(** The own property [key] of an object literal. *)
Fixpoint own_entry {A} (table : list (string * A)) (key : string) : option A :=
  match table with
  | [] => None
  | (k, v) :: rest => if bool_decide (k = key) then Some v else own_entry rest key
  end.

(** What [table[key]] finds in an object literal: an own property, a member
    inherited from [Object.prototype], or nothing. *)
Inductive Member (A : Type) : Type :=
| Own (v : A)
| Inherited
| Absent.
Arguments Own {A} v.
Arguments Inherited {A}.
Arguments Absent {A}.

Definition lookup_table {A} (table : list (string * A)) (key : string) : Member A :=
  match own_entry table key with
  | Some v => Own v
  | None => if bool_decide (key ∈ object_prototype_members) then Inherited else Absent
  end.

Definition mumbai_center : Place := place 190760 728777 "Mumbai Center".

(** [getWardCoordinates(wardId)]: an entry of the table is an object, hence
    truthy, and so is an inherited member, which the function then returns
    in place of coordinates: [None]. *)
Definition getWardCoordinates (wardId : string) : option Place :=
  match lookup_table MUMBAI_WARD_COORDINATES wardId with
  | Own p => Some p
  | Inherited => None
  | Absent => Some mumbai_center
  end.

Record Ward := { ward_id : string; ward_name : string; zone : string }.

(** The callback of the [map] in [getAvailableWards]: [None] where
    [WARD_NAMES[code]] is an inherited member, not a name. *)
Definition ward_of (code : string) : option Ward :=
  match lookup_table WARD_NAMES code with
  | Own name =>
      Some {| ward_id := code; ward_name := MapComponent.str_or (Some name) code;
              zone := "Mumbai" |}
  | Absent => Some {| ward_id := code; ward_name := code; zone := "Mumbai" |}
  | Inherited => None
  end.

(** [getAvailableWards()]: it awaits nothing and returns [{ wards }]. *)
Definition getAvailableWards : Async (option (list Ward)) :=
  ret (mapM ward_of MUMBAI_WARD_CODES).

(** [getCurrentSeason()], for [month = new Date().getMonth() + 1]. *)
Definition getCurrentSeason (month : nat) : string :=
  if ((6 <=? month) && (month <=? 9))%nat then "monsoon"
  else if ((10 <=? month) && (month <=? 11))%nat then "post-monsoon"
  else if ((12 <=? month) || (month <=? 2))%nat then "winter"
  else "summer".

(** [createWardData(wardIds, rainfallMm, tideHeightM = null, season =
    null)], called in month [month]. *)
Definition createWardData (month : nat) (wardIds : list JsVal)
    (rainfallMm tideHeightM season : JsVal) : list JsVal :=
  let tideHeightM := default_to JNull tideHeightM in
  let season := default_to JNull season in
  let currentSeason := or season (JStr (getCurrentSeason month)) in
  let defaultTide := or tideHeightM (num 2) in
  map (fun wardId =>
         JObj [ ("ward_id", wardId);
                ("rainfall_mm", rainfallMm);
                ("tide_height_m", defaultTide);
                ("season", currentSeason) ]%string)
      wardIds.

End Wards.

(* ===================================================================== *)
(** ** Bulk analysis in the ward demo ([api.js], [WardMapDemo.js]) *)
(* ===================================================================== *)

Module Bulk.
Import Api.

(** One value of [ward_predictions], as the object literal builds it. *)
Record WardPrediction := {
  risk_level : string;
  flood_probability : JsVal;
  ward_id : JsVal;
  ward_name : JsVal
}.

Record BulkResult := {
  ward_predictions : gmap string WardPrediction;
  summary : JsVal;
  timestamp : JsVal
}.

(** The callback of the [forEach] in [predictMultipleWards], up to the
    assignment. *)
Definition ward_prediction (prediction : JsVal) : Completion (JsVal * WardPrediction) :=
  wardId ← get prediction "ward_code";
  combined_assessment ← get prediction "combined_assessment";
  high_risk ← get combined_assessment "high_risk";
  bayesian_probability ← get prediction "bayesian_probability";
  ward_name ← get prediction "ward_name";
  Normal (wardId,
          {| risk_level := if truthy high_risk then "High" else "Low";
             flood_probability := bayesian_probability;
             ward_id := wardId;
             ward_name := ward_name |}).

(** The [forEach]: [None] where a ward code is a key outside the embedding
    (see [App.ToPropertyKey]). *)
Fixpoint collect (items : list JsVal) (acc : gmap string WardPrediction)
  : Completion (option (gmap string WardPrediction)) :=
  match items with
  | [] => Normal (Some acc)
  | item :: rest =>
      '(wardId, p) ← ward_prediction item;
      match App.ToPropertyKey wardId with
      | Some key => collect rest (<[key := p]> acc)
      | None => Normal None
      end
  end.

(** The [try] body of [predictMultipleWards] after its [await]. *)
Definition transform (response : JsVal) : Completion (option BulkResult) :=
  predictions ← get response "predictions";
  match predictions with
  | JArr items =>
      collect items ∅ ≫= fun collected : option (gmap string WardPrediction) =>
      summary ← get response "summary";
      timestamp ← get response "timestamp";
      Normal ((fun wp => {| ward_predictions := wp; summary := summary;
                            timestamp := timestamp |}) <$> collected)
  | _ => Throw TypeError
  end.

(** The [catch] block of [predictMultipleWards]. *)
Definition rethrow (error : Thrown) : Thrown :=
  match response_of error with
  | Some response =>
      let message := or (get_opt (data response) "detail") (JStr "Unknown server error") in
      if bool_decide (status response = 503%nat)
      then Error [Lit "Models not trained. Please run training first."]
      else if bool_decide (status response = 400%nat)
           then Error [Lit "Invalid request: "; Interp message]
           else Error [Lit "Server error ("; Lit (pretty (status response));
                       Lit "): "; Interp message]
  | None => error
  end.

(** [predictMultipleWards(wardsData)]. *)
Definition predictMultipleWards (wardsData : JsVal) : Async (option BulkResult) :=
  try_catch
    (bind getAllWardsFloodPrediction (fun response => Done (transform response)))
    (fun error => throw (rethrow error)).

(** A tile of the demo: the ward prediction with its colour. *)
Record Tile := { tile : WardPrediction; tile_color : string }.

(** The state of [WardMapDemo] that the bulk analysis writes. *)
Record Demo := {
  wardPredictions : gmap string Tile;
  loading : bool;
  error : option (list Part)
}.

(** The [forEach] over [Object.entries(results.ward_predictions)]. *)
Fixpoint colour_all (entries : list (string * WardPrediction)) (acc : gmap string Tile)
  : Completion (gmap string Tile) :=
  match entries with
  | [] => Normal acc
  | (wardId, p) :: rest =>
      c ← Display.getRiskColor (JStr (risk_level p));
      colour_all rest (<[wardId := {| tile := p; tile_color := c |}]> acc)
  end.

(** [handleBulkPrediction()] from its [await predictMultipleWards(...)] to
    its end, for results inside the embedding. *)
Definition handleBulkPrediction_resumed (results : Completion BulkResult) (st : Demo)
  : Demo :=
  match results ≫= fun r => colour_all (map_to_list (ward_predictions r)) ∅ with
  | Normal predictions =>
      {| wardPredictions := predictions; loading := false; error := error st |}
  | Throw e =>
      {| wardPredictions := wardPredictions st; loading := false;
         error := Some (message_of e) |}
  end.

Record TileStyle := {
  backgroundColor : string;
  color : string;
  fontWeight : option string
}.

(** [getWardStyle(wardId)]. *)
Definition getWardStyle (wardPredictions : gmap string Tile) (wardId : string) : TileStyle :=
  match wardPredictions !! wardId with
  | None => {| backgroundColor := "#e0e0e0"; color := "#666"; fontWeight := None |}
  | Some t =>
      {| backgroundColor := tile_color t;
         color := if bool_decide (risk_level (tile t) = "Low"%string) then "#333" else "white";
         fontWeight := Some "bold"%string |}
  end.

(** A counter of the risk summary:
    [Object.values(wardPredictions).filter(p => p.risk_level === level).length]. *)
Definition summary_count (wardPredictions : gmap string Tile) (level : string) : nat :=
  length (List.filter (fun t => bool_decide (risk_level (tile t) = level))
                      (map_to_list wardPredictions).*2).

(** A ward prediction has one of the two levels the bulk call assigns. *)
Definition two_levels (p : WardPrediction) : Prop :=
  risk_level p = "High"%string \/ risk_level p = "Low"%string.

(** A tile of the demo is orange and High, or green and Low. *)
Definition orange_or_green (t : Tile) : Prop :=
  (risk_level (tile t) = "High"%string /\ tile_color t = "#FF6600"%string)
  \/ (risk_level (tile t) = "Low"%string /\ tile_color t = "#00FF00"%string).

End Bulk.

(* ===================================================================== *)
(** ** Ward codes in request paths ([api.js]) *)
(* ===================================================================== *)

Module Paths.
Import Api.

(** Every character of the ward code is one [encodeURIComponent] leaves
    as it is. *)
Fixpoint all_unreserved (s : string) : bool :=
  match s with
  | EmptyString => true
  | String c rest => unreserved c && all_unreserved rest
  end.

End Paths.

(* ===================================================================== *)
(** ** The colours of the details pane ([WardDetails.js]) *)
(* ===================================================================== *)

Module DetailsPane.
Import MapComponent.

(** [getRiskColor(riskLevel)] of [WardDetails]. *)
Definition getRiskColor (riskLevel : JsVal) : Completion string :=
  match riskLevel with
  | JUndefined | JNull => Normal "#6c757d"%string
  | JStr s =>
      let l := toLowerCase s in
      Normal (if bool_decide (l = "low") then "#34a853"
              else if bool_decide (l = "medium") then "#fbbc04"
              else if bool_decide (l = "high") then "#ea4335"
              else if bool_decide (l = "critical") then "#ea4335"
              else "#6c757d")%string
  | _ => Throw TypeError
  end.

(** [getRiskDescription(riskLevel)] of [WardDetails]. *)
Definition getRiskDescription (riskLevel : JsVal) : Completion string :=
  match riskLevel with
  | JUndefined | JNull => Normal "Risk assessment unavailable"%string
  | JStr s =>
      let l := toLowerCase s in
      Normal (if bool_decide (l = "low") then "Minimal flood risk expected"
              else if bool_decide (l = "medium") then "Moderate flood risk - stay alert"
              else if bool_decide (l = "high") then "High flood risk - take precautions"
              else if bool_decide (l = "critical")
                   then "Critical flood risk - avoid area if possible"
                   else "Risk assessment unavailable")%string
  | _ => Throw TypeError
  end.

End DetailsPane.

(* ===================================================================== *)
(** ** Endpoints with two clients ([api.js]) *)
(* ===================================================================== *)

Module Endpoints.
Import Api.

Definition clusters_request : Request :=
  {| method := GET; url := "/wards/clusters"; body := None |}.

Definition models_info_request : Request :=
  {| method := GET; url := "/models/info"; body := None |}.

(** [getWardClustering()]. *)
Definition getWardClustering : Async JsVal :=
  try_catch
    (bind (api_get "/wards/clusters") (fun response => ret (data response)))
    (fun error =>
       if status_is error 503
       then throw (Error [Lit "Clustering models not trained. Please run training first."])
       else throw error).

(** [getWardClusters()]. *)
Definition getWardClusters : Async JsVal :=
  try_catch
    (bind (api_get "/wards/clusters") (fun response => ret (data response)))
    (fun error =>
       if status_is error 503
       then throw (Error [Lit "Clustering model not initialized."])
       else throw error).

(** [getModelInfo()]. *)
Definition getModelInfo : Async JsVal :=
  try_catch
    (bind (api_get "/models/info") (fun response => ret (data response)))
    (fun error => throw error).

(** [getFloodModelInfo()]. *)
Definition getFloodModelInfo : Async JsVal :=
  try_catch
    (bind (api_get "/models/info") (fun response => ret (data response)))
    (fun error =>
       if status_is error 503
       then throw (Error [Lit "Models not initialized."])
       else throw error).

End Endpoints.

(* ===================================================================== *)
(** ** The ward prediction panel of the demo ([WardPredictionPanel.js]) *)
(* ===================================================================== *)

Module WardPredictionPanel.
Import Api Fallbacks.

(** The state of the component that [handlePredictWard] writes. *)
Record State := {
  prediction : JsVal;
  currentStatus : JsVal;
  loading : bool;
  error : option (list Part)
}.

Definition setPrediction (v : JsVal) (st : State) : State :=
  {| prediction := v; currentStatus := currentStatus st; loading := loading st;
     error := error st |}.

Definition setCurrentStatus (v : JsVal) (st : State) : State :=
  {| prediction := prediction st; currentStatus := v; loading := loading st;
     error := error st |}.

Definition setLoading (v : bool) (st : State) : State :=
  {| prediction := prediction st; currentStatus := currentStatus st; loading := v;
     error := error st |}.

Definition setError (v : option (list Part)) (st : State) : State :=
  {| prediction := prediction st; currentStatus := currentStatus st; loading := loading st;
     error := v |}.

(** [loadCurrentStatus()]: the state update is the last step of the [try]
    body and of the [catch] block. *)
Definition loadCurrentStatus (now : string) (selectedWard : option string) (st : State)
  : Async State :=
  match App.nonempty selectedWard with
  | None => ret st
  | Some ward =>
      try_catch
        (bind (getWardCurrentStatus now ward) (fun status => ret (setCurrentStatus status st)))
        (fun _ => ret (setCurrentStatus JNull st))
  end.

(** [handlePredictWard()].  The [catch] block sees the state as the [try]
    body left it: unchanged when [predictSingleWard] rejects, with the
    prediction set when [loadCurrentStatus] does. *)
Definition handlePredictWard (now : string) (selectedWard : option string) (st : State)
  : Async State :=
  match App.nonempty selectedWard with
  | None => ret (setError (Some [Lit "Please select a ward first"]) st)
  | Some ward =>
      let st := setError None (setLoading true st) in
      bind
        (try_catch (bind (predictSingleWard ward) (fun result => ret (inl result)))
                   (fun error => ret (inr error)))
        (fun outcome =>
           match outcome with
           | inr error => ret (setLoading false (setError (Some (message_of error)) st))
           | inl result =>
               let st := setPrediction result st in
               bind (try_catch (loadCurrentStatus now selectedWard st)
                               (fun error => ret (setError (Some (message_of error)) st)))
                    (fun st => ret (setLoading false st))
           end)
  end.

End WardPredictionPanel.

(* ===================================================================== *)
(** ** The connection status of the application ([App.js]) *)
(* ===================================================================== *)

Module Connection.
Import Api Fallbacks App.

(** The three values [apiStatus] takes; [disconnected] is the value
    ['error'], which the header shows as "Disconnected". *)
Inductive ApiStatus : Type := checking | connected | disconnected.

(** [apiStatus] beside the state of the application. *)
Record Shell := { apiStatus : ApiStatus; app : AppState }.

(** [checkApiHealth()], up to its [await]. *)
Definition checkApiHealth (sh : Shell) : Shell :=
  {| apiStatus := checking; app := send (issued checkFloodApiHealth) (app sh) |}.

(** [checkApiHealth()] from its [await] to its end, where [health] is the
    completion of [checkFloodApiHealth()].  [setApiStatus('connected')] comes
    before the read of [health.models_loaded], and the [catch] block
    overwrites it. *)
Definition checkApiHealth_resumed (health : Completion JsVal) (sh : Shell) : Shell :=
  match health ≫= fun h => get h "models_loaded" with
  | Normal models_loaded =>
      {| apiStatus := connected;
         app := if truthy models_loaded then loadAllPredictions (app sh) else app sh |}
  | Throw e =>
      {| apiStatus := disconnected; app := setError (Some (message_of e)) (app sh) |}
  end.

(** [handleRefresh()]. *)
Definition handleRefresh (sh : Shell) : Shell :=
  match apiStatus sh with
  | connected => {| apiStatus := connected; app := loadAllPredictions (app sh) |}
  | _ => checkApiHealth sh
  end.

End Connection.

(* ===================================================================== *)
(** ** Backends and wards used by the examples of the further properties *)
(* ===================================================================== *)

Module Examples.
Import Api.

(** A backend that gives every request the same outcome. *)
Definition always (o : Completion Response) : Request -> Completion Response :=
  fun _ => o.

Definition unavailable : Completion Response :=
  Throw (AxiosError (Some {| status := 503; data := JNull |}) true
                    "Request failed with status code 503").

(** A backend that answers its first request, with a critical
    prediction, and is unavailable from then on, also for the same
    request. *)
Definition once_then_unavailable (i : nat) (_ : Request) : Completion Response :=
  match i with
  | O => Scenario.ok (Scenario.critical_prediction (JBool true))
  | S _ => unavailable
  end.

Definition bulk_item (code : string) (high_risk : bool) (p : Qc) : JsVal :=
  JObj [ ("ward_code", JStr code);
         ("ward_name", JStr code);
         ("combined_assessment", JObj [ ("high_risk", JBool high_risk) ]);
         ("bayesian_probability", JNum (Fin p)) ]%string.

(** An answer of [/predict/all-wards] with a high and a low ward. *)
Definition two_wards : JsVal :=
  JObj [ ("predictions", JArr [ bulk_item "A" true (dec 82 100);
                                bulk_item "B" false (dec 5 100) ]);
         ("timestamp", JStr "2025-07-01T10:00:00.000Z") ]%string.

Definition two_wards_result : Bulk.BulkResult :=
  match (run (always (Scenario.ok two_wards)) (Bulk.predictMultipleWards JUndefined)).2 with
  | Normal (Some r) => r
  | _ => {| Bulk.ward_predictions := ∅; Bulk.summary := JUndefined;
            Bulk.timestamp := JUndefined |}
  end.


Definition fresh_demo : Bulk.Demo :=
  {| Bulk.wardPredictions := ∅; Bulk.loading := true; Bulk.error := None |}.


End Examples.

(* ===================================================================== *)
(** * Properties *)
(* ===================================================================== *)

(** ** Values *)

Section Values.

Lemma truthy_not_nullish (v : JsVal) : truthy v = true -> nullish v = false.
Proof. destruct v; simpl; congruence. Qed.

Lemma or_left (a d : JsVal) : truthy a = true -> or a d = a.
Proof. intros Ha. unfold or. by rewrite Ha. Qed.

Lemma or_right (a d : JsVal) : truthy a = false -> or a d = d.
Proof. intros Ha. unfold or. by rewrite Ha. Qed.


Lemma or_not_nullish (a d : JsVal) : nullish d = false -> nullish (or a d) = false.
Proof.
  intros Hd. unfold or. destruct (truthy a) eqn:Ha; [|assumption].
  by apply truthy_not_nullish.
Qed.

Lemma get_not_nullish (v : JsVal) (k : string) :
  nullish v = false -> get v k = Normal (own v k).
Proof. intros H. unfold get. by rewrite H. Qed.


(** The arithmetic is that of doubles: 0.1 + 0.2 is 0.30000000000000004,
    which is not the double of 0.3; a division by zero gives an infinity
    or NaN; a sum beyond the largest double is infinite. *)
Lemma double_arithmetic :
  num_add (Fin (dec 1 10)) (Fin (dec 2 10))
  = Fin (Q2Qc (1351079888211149 # 4503599627370496))
  /\ binary64 (dec 3 10) = Q2Qc (5404319552844595 # 18014398509481984)
  /\ num_div (Fin 1) (Fin 0) = Fin (Q2Qc overflow)
  /\ num_div (Fin 0) (Fin 0) = NaN
  /\ num_add (Fin (Q2Qc (inject_Z (2 ^ 1023)))) (Fin (Q2Qc (inject_Z (2 ^ 1023))))
     = Fin (Q2Qc overflow)
  /\ num_add (Fin (Q2Qc (inject_Z (2 ^ 53)))) (Fin 1) = Fin (Q2Qc (inject_Z (2 ^ 53))).
Proof. repeat split; by vm_compute. Qed.

End Values.

(** ** Runs of the client's calls *)

Section Runs.
Import Api Fallbacks Endpoints.

(** [run] is [run_from] for a backend that answers by the request alone. *)
Lemma run_from_always {A} (net : Request -> Completion Response) (n : nat) (p : Async A) :
  run_from (fun _ => net) n p = run net p.
Proof.
  revert n. induction p as [c|r k IH]; intros n; cbn; [reflexivity|]. by rewrite IH.
Qed.

(** For a call that issues at most one request, [run] covers every
    backend: only the answer to that request matters. *)
Lemma run_from_single {A} (net : nat -> Request -> Completion Response) (n : nat)
    (p : Async A) :
  single_request p -> run_from net n p = run (net n) p.
Proof.
  destruct p as [c|r k]; cbn; [reflexivity|]. intros H.
  destruct (H (net n r)) as [c ->]. reflexivity.
Qed.

Ltac single :=
  cbn; intros [response|e]; cbn;
  repeat match goal with
         | |- context [status_is ?e ?n] => destruct (status_is e n)
         end;
  cbn; eauto.

(** The calls of the client whose runs are stated with [run] each issue at
    most one request. *)
Lemma client_calls_single_request :
  (forall rainfallData, single_request (predictFloodRisk rainfallData))
  /\ (forall rainfallData, single_request (predictFloodRiskSimple rainfallData))
  /\ (forall rainfallData lat lon useForecast,
        single_request (predictFloodRiskWithWeather rainfallData lat lon useForecast))
  /\ (forall wardId, single_request (predictSingleWard wardId))
  /\ (forall wardCode, single_request (getWardFloodPrediction wardCode))
  /\ single_request getAllWardsFloodPrediction
  /\ (forall wardCode, single_request (getWardCurrentWeather wardCode))
  /\ single_request checkServerHealth
  /\ single_request checkFloodApiHealth
  /\ (forall lat lon, single_request (getCurrentWeather lat lon))
  /\ (forall now wardId, single_request (getWardCurrentStatus now wardId))
  /\ (forall wardsData, single_request (Bulk.predictMultipleWards wardsData))
  /\ single_request getWardClustering
  /\ single_request getWardClusters
  /\ single_request getModelInfo
  /\ single_request getFloodModelInfo.
Proof.
  repeat split; intros.
  - unfold predictFloodRisk. destruct (invalid_series _); [done|single].
  - unfold predictFloodRiskSimple. destruct (invalid_series _); [done|single].
  - unfold predictFloodRiskWithWeather. cbn zeta.
    destruct (truthy _ && invalid_series _); [done|single].
  - unfold predictSingleWard. single.
  - unfold getWardFloodPrediction. single.
  - unfold getAllWardsFloodPrediction. single.
  - unfold getWardCurrentWeather. single.
  - unfold checkServerHealth. single.
  - unfold checkFloodApiHealth. single.
  - unfold getCurrentWeather. single.
  - unfold getWardCurrentStatus, getWardFloodPrediction, get. single;
      repeat match goal with
             | |- context [nullish ?v] => destruct (nullish v); cbn
             end; eauto.
  - unfold Bulk.predictMultipleWards, getAllWardsFloodPrediction. single;
      destruct (Bulk.transform _); cbn; eauto.
  - unfold getWardClustering. single.
  - unfold getWardClusters. single.
  - unfold getModelInfo. single.
  - unfold getFloodModelInfo. single.
Qed.

End Runs.

(** ** The prediction formatter *)

Section Formatter.
Import Api.

(** Every step of the formatter on a truthy input, spelled out. *)
Lemma formatFloodPrediction_truthy (now : string) (prediction : JsVal) :
  truthy prediction = true ->
  let randomForest := or (own prediction "random_forest") (JObj []) in
  let combinedAssessment := or (own prediction "combined_assessment") (JObj []) in
  formatFloodPrediction now prediction =
  Normal (JObj
    [ ("wardCode", own prediction "ward_code");
      ("wardName", own prediction "ward_name");
      ("riskZone", or (own prediction "ward_risk_zone") (JStr "Unknown"));
      ("riskLevel", or (own randomForest "flood_risk_level") (num 0));
      ("willFlood", or (own randomForest "will_flood") (JBool false));
      ("riskProbabilities", or (own randomForest "risk_probabilities") (JObj []));
      ("bayesianProbability", or (own prediction "bayesian_probability") (num 0));
      ("highRisk", or (own combinedAssessment "high_risk") (JBool false));
      ("confidence", or (own combinedAssessment "confidence") (JStr "Medium"));
      ("timestamp", or (own prediction "timestamp") (JStr now));
      ("weatherData", or (own prediction "weather_data") (JObj [])) ]%string).
Proof.
  intros Ht rf ca. unfold formatFloodPrediction. rewrite Ht. simpl negb. cbv iota.
  pose proof (truthy_not_nullish _ Ht) as Hn.
  assert (Hrf : nullish rf = false) by (by apply or_not_nullish).
  assert (Hca : nullish ca = false) by (by apply or_not_nullish).
  rewrite !(get_not_nullish prediction) by assumption. cbn [mbind Completion_bind cbind].
  fold rf ca.
  rewrite !(get_not_nullish rf), !(get_not_nullish ca) by assumption.
  cbn [mbind Completion_bind cbind].
  unfold get_opt. rewrite Hca. reflexivity.
Qed.

Lemma formatFloodPrediction_falsy (now : string) (prediction : JsVal) :
  truthy prediction = false -> formatFloodPrediction now prediction = Normal JNull.
Proof. intros Hf. unfold formatFloodPrediction. by rewrite Hf. Qed.


(** C2, as the code has it: the formatter never throws; a falsy input
    ([null], [undefined], [0], [NaN], [""], [false]) is answered with
    [null], and every truthy input with a record whose risk zone, risk
    level, flood flag, per-class probabilities, probability, high-risk
    flag, confidence, timestamp and weather data are neither [undefined]
    nor [null]. *)
Theorem formatFloodPrediction_defaults (now : string) (prediction : JsVal) :
  if truthy prediction
  then exists fields,
         formatFloodPrediction now prediction = Normal (JObj fields)
         /\ Forall (fun k => nullish (assoc fields k) = false) formatted_fields
  else formatFloodPrediction now prediction = Normal JNull.
Proof.
  destruct (truthy prediction) eqn:Ht.
  - eexists. split; [by apply formatFloodPrediction_truthy|].
    unfold formatted_fields.
    repeat (apply Forall_cons; split; [cbn; by apply or_not_nullish|]).
    apply Forall_nil_2.
  - by apply formatFloodPrediction_falsy.
Qed.

(** C2, as stated, fails on [null]: no record comes back. *)
Lemma formatFloodPrediction_null_is_null :
  formatFloodPrediction Scenario.noon JNull = Normal JNull
  /\ ~ (exists fields, formatFloodPrediction Scenario.noon JNull = Normal (JObj fields)).
Proof. split; [reflexivity|]. intros [fields H]. discriminate H. Qed.

(** C9, as the code has it: for every input and every two clock readings
    the two outputs are [null] both times (falsy input) or two records
    with the same fields in the same order that agree on every field
    other than [timestamp]: no other field depends on the clock.  The
    [timestamp] field passes the input's own timestamp through when that
    is truthy, and the two outputs are then identical; for every other
    truthy input it is the reading of the clock at the call. *)
Theorem formatFloodPrediction_clock (now1 now2 : string) (prediction : JsVal) :
  if truthy prediction
  then exists (before after : list (string * JsVal)) (stamp1 stamp2 : JsVal),
         formatFloodPrediction now1 prediction
         = Normal (JObj (before ++ ("timestamp"%string, stamp1) :: after))
         /\ formatFloodPrediction now2 prediction
            = Normal (JObj (before ++ ("timestamp"%string, stamp2) :: after))
         /\ ("timestamp"%string ∉ (before ++ after).*1)
         /\ if truthy (own prediction "timestamp")
            then stamp1 = own prediction "timestamp"
                 /\ stamp2 = own prediction "timestamp"
                 /\ formatFloodPrediction now1 prediction
                    = formatFloodPrediction now2 prediction
            else stamp1 = JStr now1 /\ stamp2 = JStr now2
  else formatFloodPrediction now1 prediction = Normal JNull
       /\ formatFloodPrediction now2 prediction = Normal JNull.
Proof.
  destruct (truthy prediction) eqn:Ht.
  - rewrite !formatFloodPrediction_truthy by assumption. cbn zeta.
    set (randomForest := or (own prediction "random_forest") (JObj [])).
    set (combinedAssessment := or (own prediction "combined_assessment") (JObj [])).
    exists [ ("wardCode", own prediction "ward_code");
             ("wardName", own prediction "ward_name");
             ("riskZone", or (own prediction "ward_risk_zone") (JStr "Unknown"));
             ("riskLevel", or (own randomForest "flood_risk_level") (num 0));
             ("willFlood", or (own randomForest "will_flood") (JBool false));
             ("riskProbabilities", or (own randomForest "risk_probabilities") (JObj []));
             ("bayesianProbability", or (own prediction "bayesian_probability") (num 0));
             ("highRisk", or (own combinedAssessment "high_risk") (JBool false));
             ("confidence", or (own combinedAssessment "confidence") (JStr "Medium")) ]%string,
           [ ("weatherData", or (own prediction "weather_data") (JObj [])) ]%string,
           (or (own prediction "timestamp") (JStr now1)),
           (or (own prediction "timestamp") (JStr now2)).
    split; [reflexivity|]. split; [reflexivity|]. split.
    + cbn. intros H. repeat (apply elem_of_cons in H as [H|H]; [discriminate H|]).
      by apply elem_of_nil in H.
    + destruct (truthy (own prediction "timestamp")) eqn:Hts.
      * rewrite !(or_left (own prediction "timestamp")) by assumption. by repeat split.
      * rewrite !(or_right (own prediction "timestamp")) by assumption. by split.
  - by rewrite !formatFloodPrediction_falsy.
Qed.

(** C9, as stated, fails on an input without a timestamp: formatted at two
    instants, the records differ. *)
Lemma formatFloodPrediction_reads_clock :
  formatFloodPrediction Scenario.noon (JObj [])
  <> formatFloodPrediction Scenario.midnight (JObj []).
Proof.
  rewrite !formatFloodPrediction_truthy by reflexivity. cbn.
  intros H. inversion H.
Qed.

End Formatter.

(** ** Probability tiers *)

Section Tiers.
Import Api MapComponent.

(** Goals about the order of rationals, after case analysis on the
    comparisons the code makes. *)
Ltac reduce_literals :=
  repeat match goal with
         | H : context [Qred ?q] |- _ =>
             let v := eval vm_compute in (Qred q) in change (Qred q) with v in H
         end.

Ltac tiers :=
  repeat case_bool_decide; try reflexivity;
  exfalso; unfold Qclt, Qcle, dec in *; cbn in *; reduce_literals; lra.

Lemma getRiskLevel_number (p : Qc) :
  getRiskLevel (JNum (Fin p)) =
  Some (if bool_decide (dec 7 10 ≤ p) then "Critical"%string
        else if bool_decide (dec 3 10 ≤ p) then "High"%string
        else if bool_decide (dec 1 10 ≤ p) then "Medium"%string else "Low"%string).
Proof. reflexivity. Qed.

Lemma bayesian_risk_level_number (p : Qc) :
  bayesian_risk_level (JNum (Fin p)) =
  Some (if bool_decide (dec 7 10 < p) then "High"%string
        else if bool_decide (dec 3 10 < p) then "Medium"%string else "Low"%string).
Proof.
  unfold bayesian_risk_level, or. cbn [truthy].
  case_bool_decide as H0; cbn; [|reflexivity].
  subst p. tiers.
Qed.




End Tiers.

(** ** The API client *)

Section Client.
Import Api.

Variable net : Request -> Completion Response.

Lemma invalid_series_spec (v : JsVal) : invalid_series v = true <-> ~ series_of_15 v.
Proof.
  unfold invalid_series, series_of_15. destruct v; cbn;
    try (split; [intros _ (items & Hv & _); discriminate Hv | reflexivity]).
  case_bool_decide as Hlen; cbn; split.
  - discriminate.
  - intros Hno. exfalso. apply Hno. by exists items.
  - intros _ (items' & Hv & Hlen'). injection Hv as <-. contradiction.
  - reflexivity.
Qed.

(** C6, as the code has it: [predictFloodRisk] and
    [predictFloodRiskSimple] reject a series that is not an array of
    exactly 15 values before any request: under every backend the list
    of requests issued is empty, so nothing is sent, let alone sent
    again.  What they throw is a plain [Error] with the validation
    message, which the catch block of [predictFloodRisk] replaces by one
    with the prefix "Request failed: ".  [predictFloodRiskWithWeather]
    does the same for a truthy series only; a falsy one ([null],
    [undefined], [0], [NaN], [""], [false]) is not checked: the request is
    sent, without the series in its body. *)
Theorem series_validated_before_request (rainfallData : JsVal) :
  ~ series_of_15 rainfallData ->
  run net (predictFloodRisk rainfallData)
    = ([], Throw (Error [Lit "Request failed: "; Lit series_message]))
  /\ run net (predictFloodRiskSimple rainfallData)
    = ([], Throw (Error [Lit series_message]))
  /\ forall lat lon useForecast,
       if truthy rainfallData
       then run net (predictFloodRiskWithWeather rainfallData lat lon useForecast)
            = ([], Throw (Error [Lit "Request failed: "; Lit series_message]))
       else (run net (predictFloodRiskWithWeather rainfallData lat lon useForecast)).1
            = [ {| method := POST; url := "/predict-with-weather";
                   body := Some (JObj
                     ((if not_null (default_to JNull lat)
                       then [("lat"%string, default_to JNull lat)] else [])
                      ++ (if not_null (default_to JNull lon)
                          then [("lon"%string, default_to JNull lon)] else [])
                      ++ [("use_forecast"%string, default_to (JBool true) useForecast)])) |} ].
Proof.
  intros Hbad. apply invalid_series_spec in Hbad.
  unfold predictFloodRisk, predictFloodRiskSimple, predictFloodRiskWithWeather.
  rewrite Hbad. repeat split.
  intros lat lon useForecast.
  assert (Hd : truthy (default_to JNull rainfallData) = truthy rainfallData)
    by (by destruct rainfallData).
  destruct (truthy rainfallData) eqn:Hgiven.
  - assert (Hd' : default_to JNull rainfallData = rainfallData)
      by (destruct rainfallData; try reflexivity; discriminate Hgiven).
    rewrite Hd', Hgiven, Hbad. reflexivity.
  - cbn zeta. rewrite Hd. cbn.
    by destruct (net _) as [response|e].
Qed.

(** C5, as the code has it.  [predictFloodRisk] replaces every failure by
    an [Error] of its own: a failed validation by "Request failed: " and
    the validation message; an answer with status 503 by the
    model-not-loaded text, with status 400 by "Invalid request: " and the
    server's detail, with any other status by "Server error (status): "
    and the detail; no answer to a request that was sent by the
    cannot-connect text; anything else by "Request failed: " and the
    message.  [getWardFloodPrediction] replaces the failures with status
    503, 404 and 500 by a text of its own and
    [getAllWardsFloodPrediction] those with status 503; both hand every
    other failure of the request to the caller as axios raised it. *)
Theorem client_error_translation :
  (forall rainfallData,
     let request :=
       {| method := POST; url := "/predict";
          body := Some (JObj [("rainfall_values"%string, rainfallData)]) |} in
     run net (predictFloodRisk rainfallData)
     = if invalid_series rainfallData
       then ([], Throw (Error [Lit "Request failed: "; Lit series_message]))
       else ([request],
             match net request with
             | Normal response => Normal (data response)
             | Throw (AxiosError (Some response) _ _) =>
                 Throw (Error
                   (if bool_decide (status response = 503%nat)
                    then [Lit "Model not loaded on server. Please check server logs."]
                    else if bool_decide (status response = 400%nat)
                    then [Lit "Invalid request: "; Interp (server_message response)]
                    else [Lit "Server error ("; Lit (pretty (status response)); Lit "): ";
                          Interp (server_message response)]))
             | Throw (AxiosError None true _) =>
                 Throw (Error [Lit "Cannot connect to backend server. Make sure your FastAPI server is running on http://127.0.0.1:8000"])
             | Throw e => Throw (Error (Lit "Request failed: " :: message_of e))
             end))
  /\ (forall wardCode,
        let request := ward_prediction_request (encodeURIComponent wardCode) in
        run net (getWardFloodPrediction wardCode)
        = ([request],
           match net request with
           | Normal response => Normal (data response)
           | Throw e =>
               Throw (if status_is e 503
                      then Error [Lit "Flood prediction models not initialized. Please check server status."]
                      else if status_is e 404
                      then Error [Lit ("Weather data not available for ward " +:+ wardCode)]
                      else if status_is e 500
                      then Error [Lit ("Prediction error for ward " +:+ wardCode
                                       +:+ ". Please try again.")]
                      else e)
           end))
  /\ run net getAllWardsFloodPrediction
     = ([all_wards_request],
        match net all_wards_request with
        | Normal response => Normal (data response)
        | Throw e =>
            Throw (if status_is e 503
                   then Error [Lit "Flood prediction models not initialized. Please check server status."]
                   else e)
        end).
Proof.
  split; [|split].
  - intros rainfallData request. unfold predictFloodRisk.
    destruct (invalid_series rainfallData); [reflexivity|]. cbn. fold request.
    destruct (net request) as [response|e]; [reflexivity|]. cbn. unfold translate.
    destruct e as [|message|[response|] [|] message]; cbn; try reflexivity.
    + by repeat case_bool_decide.
    + by repeat case_bool_decide.
  - intros wardCode request. unfold getWardFloodPrediction. cbn.
    fold (ward_prediction_request (encodeURIComponent wardCode)). fold request.
    destruct (net request) as [response|e]; [reflexivity|]. cbn.
    by repeat destruct (status_is e _).
  - unfold getAllWardsFloodPrediction. cbn. fold all_wards_request.
    destruct (net all_wards_request) as [response|e]; [reflexivity|]. cbn.
    by destruct (status_is e _).
Qed.

End Client.

Section ClientExamples.
Import Api.

Lemma series_validated_before_request_witness :
  ~ series_of_15 (JArr [num 12; num 30])
  /\ run (fun _ => Scenario.ok JNull) (predictFloodRisk (JArr [num 12; num 30]))
     = ([], Throw (Error [Lit "Request failed: "; Lit series_message]))
  /\ run (fun _ => Scenario.ok JNull)
         (predictFloodRiskWithWeather (JArr [num 12; num 30]) JUndefined JUndefined JUndefined)
     = ([], Throw (Error [Lit "Request failed: "; Lit series_message])).
Proof.
  assert (H : ~ series_of_15 (JArr [num 12; num 30])).
  { intros (items & Hv & Hlen). injection Hv as <-. discriminate Hlen. }
  split; [exact H|].
  destruct (series_validated_before_request (fun _ => Scenario.ok JNull) _ H)
    as (Hrisk & _ & Hweather).
  split; [exact Hrisk|]. exact (Hweather JUndefined JUndefined JUndefined).
Defined.

(** C6, as stated, fails for [predictFloodRiskWithWeather] on a series
    that is given but falsy: the empty string (and likewise [0], [false],
    [NaN]) is not an array of 15 values, yet the request is sent and the
    call returns the answer. *)
Lemma falsy_series_is_sent :
  ~ series_of_15 (JStr "")
  /\ run (fun _ => Scenario.ok JNull)
         (predictFloodRiskWithWeather (JStr "") JUndefined JUndefined JUndefined)
     = ([ {| method := POST; url := "/predict-with-weather";
             body := Some (JObj [("use_forecast"%string, JBool true)]) |} ],
        Normal JNull)
  /\ (run (fun _ => Scenario.ok JNull)
          (predictFloodRiskWithWeather (num 0) JUndefined JUndefined JUndefined)).1
     = [ {| method := POST; url := "/predict-with-weather";
            body := Some (JObj [("use_forecast"%string, JBool true)]) |} ].
Proof.
  split; [|split; reflexivity].
  intros (items & Hv & _). discriminate Hv.
Qed.

Lemma client_error_translation_witness :
  run (fun _ => Scenario.network_down) (getWardFloodPrediction "A")
  = ([ward_prediction_request "A"], Throw (AxiosError None true "Network Error")).
Proof.
  destruct (client_error_translation (fun _ => Scenario.network_down)) as (_ & Hward & _).
  exact (Hward "A"%string).
Defined.

(** C5, as stated, fails when no response arrives: the caller of
    [getWardFloodPrediction] receives the axios error itself, and likewise
    for a status the catch block does not name. *)
Lemma getWardFloodPrediction_rethrows_raw :
  (run (fun _ => Scenario.network_down) (getWardFloodPrediction "A")).2
    = Throw (AxiosError None true "Network Error")
  /\ (run (fun _ => Throw (AxiosError (Some {| status := 400; data := JNull |}) true
                             "Request failed with status code 400"))
          getAllWardsFloodPrediction).2
    = Throw (AxiosError (Some {| status := 400; data := JNull |}) true
               "Request failed with status code 400").
Proof. split; reflexivity. Qed.

End ClientExamples.

(** ** Centroids and the click handler *)

Section Centroid.
Import Api MapComponent App.

Lemma sum_ring_spec (polygon : Ring) (x y : JsNum) :
  sum_ring polygon x y
  = (foldl (fun s v => num_add s (Fin v)) x polygon.*1,
     foldl (fun s v => num_add s (Fin v)) y polygon.*2).
Proof.
  revert x y. induction polygon as [|[px py] rest IH]; intros x y; cbn [sum_ring].
  - reflexivity.
  - by rewrite IH.
Qed.

Lemma calculateCentroid_nonempty (p : Qc * Qc) (polygon : Ring) (rest : list Ring) :
  calculateCentroid (Some ((p :: polygon) :: rest))
  = Some {| longitude := float_mean (p :: polygon).*1;
            latitude := float_mean (p :: polygon).*2 |}.
Proof.
  unfold calculateCentroid. rewrite sum_ring_spec.
  unfold float_mean, float_sum, StatsCards.of_nat. by rewrite !length_fmap.
Qed.

Lemma str_or_nonempty (a : option string) (b : string) :
  b <> ""%string -> nonempty (Some (str_or a b)) = Some (str_or a b).
Proof.
  intros Hb. unfold nonempty, str_or.
  assert (Hne : str_or a b <> ""%string).
  { unfold str_or. destruct a as [s|]; [case_bool_decide|]; assumption. }
  fold (str_or a b). by rewrite bool_decide_eq_false_2.
Qed.

Lemma effects_inflight_below (before : option string) (moved : bool) (st : AppState) (id : nat) :
  (id < next st)%nat -> inflight (effects before moved st) !! id = inflight st !! id.
Proof.
  intros Hid. unfold effects. destruct (nonempty (selectedWard st)) as [selected|]; [|reflexivity].
  destruct (bool_decide (before = selectedWard st)); cbn.
  - by destruct moved.
  - rewrite lookup_insert_ne; [reflexivity|lia].
Qed.

Lemma effects_inflight_fresh (before : option string) (moved : bool) (st : AppState) :
  match inflight (effects before moved st) !! next st with
  | Some (MapClick _ _ _ _) => inflight st !! next st <> None
  | _ => True
  end.
Proof.
  unfold effects. destruct (nonempty (selectedWard st)) as [selected|].
  - destruct (bool_decide (before = selectedWard st)); cbn.
    + destruct moved; cbn; by destruct (inflight st !! next st) as [[]|].
    + by rewrite lookup_insert_eq.
  - by destruct (inflight st !! next st) as [[]|].
Qed.

(** What the effects of a render leave alone. *)
Lemma effects_keeps (before : option string) (moved : bool) (st : AppState) :
  predictions (effects before moved st) = predictions st
  /\ selectedWard (effects before moved st) = selectedWard st
  /\ loading (effects before moved st) = loading st
  /\ (next st <= next (effects before moved st))%nat.
Proof.
  unfold effects. destruct (nonempty (selectedWard st)) as [selected|]; [|by eauto].
  destruct (bool_decide (before = selectedWard st)), moved; cbn; repeat split; lia.
Qed.

(** What one click sends besides the request of its handler: the weather
    details ask for the weather and the prediction of the selected ward
    whenever the selection or the coordinates changed, the panel asks for
    both whenever the selection changed. *)
Lemma click_sent (feature : Feature) (st : AppState) :
  let wardName := str_or (ward_name_full (properties feature)) "Unknown Ward" in
  let wardCode := str_or (ward_code (properties feature)) "N/A" in
  let weather := {| method := GET; url := "/weather/current/" +:+ wardName; body := None |} in
  let prediction := ward_prediction_request (encodeURIComponent wardName) in
  let panel := if bool_decide (selectedWard st = Some wardName) then []
               else [prediction; weather] in
  sent (click feature st)
  = match calculateCentroid (coordinates feature) with
    | Some _ => sent st ++ ward_prediction_request wardCode :: weather :: prediction :: panel
    | None => sent st ++ (if bool_decide (selectedWard st = Some wardName) then []
                          else weather :: prediction :: panel)
    end.
Proof.
  cbn zeta. unfold click, effects.
  destruct (calculateCentroid (coordinates feature)) as [c|];
    cbn [selectedWard suspend send setWardCoordinates setLoading setSelectedWard];
    rewrite str_or_nonempty by discriminate;
    destruct (bool_decide (selectedWard st = Some _)); cbn;
    rewrite <- ?app_assoc; try reflexivity.
  by rewrite app_nil_r.
Qed.

(** C10, as the code has it: the centroid of a non-empty outer ring is the
    mean as the loop computes it in double arithmetic (the sum from left to
    right, then the division, each step rounded), [null] when the
    coordinates or the first ring are absent, and a pair of NaN for an
    empty outer ring.  The click handler reads the latitude and longitude
    of the result unguarded: exactly when the outer ring is present, empty
    or not, it is suspended at its request, which is the first the click
    sends; on a [null] centroid it ends before its [try], so it sends no
    request of its own, is not suspended, and leaves the loading flag set. *)
Theorem click_total_iff_outer_ring (feature : Feature) (st : AppState) :
  inflight st !! next st = None ->
  let wardName := str_or (ward_name_full (properties feature)) "Unknown Ward" in
  let wardCode := str_or (ward_code (properties feature)) "N/A" in
  (forall p polygon rest,
     coordinates feature = Some ((p :: polygon) :: rest) ->
     calculateCentroid (coordinates feature)
     = Some {| longitude := float_mean (p :: polygon).*1;
               latitude := float_mean (p :: polygon).*2 |})
  /\ (forall rest,
        coordinates feature = Some ([] :: rest) ->
        calculateCentroid (coordinates feature) = Some {| longitude := NaN; latitude := NaN |})
  /\ (coordinates feature = None \/ coordinates feature = Some [] <->
      calculateCentroid (coordinates feature) = None)
  /\ (click_suspended st (click feature st) <->
      exists polygon rest, coordinates feature = Some (polygon :: rest))
  /\ (forall polygon rest,
        coordinates feature = Some (polygon :: rest) ->
        exists c others,
          calculateCentroid (coordinates feature) = Some c
          /\ inflight (click feature st) !! next st
             = Some (MapClick wardName wardCode c (predictSingleWard wardCode))
          /\ sent (click feature st)
             = sent st ++ issued (predictSingleWard wardCode) ++ others
          /\ issued (predictSingleWard wardCode) = [ward_prediction_request wardCode])
  /\ (calculateCentroid (coordinates feature) = None ->
      loading (click feature st) = true
      /\ inflight (click feature st) !! next st
         <> Some (MapClick wardName wardCode
                           {| longitude := NaN; latitude := NaN |}
                           (predictSingleWard wardCode))
      /\ sent (click feature st)
         = sent st ++ (if bool_decide (selectedWard st = Some wardName) then []
                       else [ {| method := GET; url := "/weather/current/" +:+ wardName;
                                 body := None |};
                              ward_prediction_request (encodeURIComponent wardName);
                              ward_prediction_request (encodeURIComponent wardName);
                              {| method := GET; url := "/weather/current/" +:+ wardName;
                                 body := None |} ])).
Proof.
  intros Hfresh wardName wardCode.
  assert (Hnot : calculateCentroid (coordinates feature) = None ->
                 ~ click_suspended st (click feature st)).
  { intros Hnone (wn & wc & c & call & Hw). unfold click in Hw. rewrite Hnone in Hw.
    pose proof (effects_inflight_fresh (selectedWard st) false
                  (setLoading true (setSelectedWard (Some wardName) st))) as Hf.
    cbn -[effects] in Hf. fold wardName in Hw. rewrite Hw in Hf. by destruct Hf. }
  split; [|split; [|split; [|split; [|split]]]].
  - intros p polygon rest ->. apply calculateCentroid_nonempty.
  - by intros rest ->.
  - destruct (coordinates feature) as [[|polygon rest]|]; cbn; split; try tauto.
    + intros [H|H]; discriminate H.
    + destruct (sum_ring _ _ _). discriminate.
  - destruct (coordinates feature) as [[|polygon rest]|] eqn:Hc.
    + split; [|by intros (? & ? & ?)]. intros H. by destruct (Hnot eq_refl).
    + split; [eauto|]. intros _. unfold click_suspended, click. rewrite Hc.
      cbn -[effects]. destruct (sum_ring _ _ _) as [x y].
      rewrite effects_inflight_below by (cbn; lia). cbn.
      rewrite lookup_insert_eq. eauto.
    + split; [|by intros (? & ? & ?)]. intros H. by destruct (Hnot eq_refl).
  - intros polygon rest Hc.
    assert (Hsome : exists c, calculateCentroid (coordinates feature) = Some c).
    { rewrite Hc. cbn. destruct (sum_ring _ _ _). eauto. }
    destruct Hsome as [c Hcen]. exists c.
    pose proof (click_sent feature st) as Hsent. cbn zeta in Hsent. rewrite Hcen in Hsent.
    eexists. split; [exact Hcen|]. split; [|split; [exact Hsent|reflexivity]].
    unfold click. rewrite Hcen.
    rewrite effects_inflight_below by (cbn; lia). cbn. by rewrite lookup_insert_eq.
  - intros Hnone. split; [|split].
    + unfold click. rewrite Hnone. by rewrite (proj1 (proj2 (proj2 (effects_keeps _ _ _)))).
    + intros Hw. apply (Hnot Hnone). unfold click_suspended. eauto.
    + pose proof (click_sent feature st) as Hsent. cbn zeta in Hsent.
      rewrite Hnone in Hsent. rewrite Hsent. fold wardName.
      by destruct (bool_decide (selectedWard st = Some wardName)).
Qed.

Lemma click_total_iff_outer_ring_witness :
  inflight initial !! next initial = None
  /\ calculateCentroid (coordinates Scenario.ward_A)
     = Some {| longitude := float_mean [Q2Qc 0; Q2Qc 2; Q2Qc 2; Q2Qc 0];
               latitude := float_mean [Q2Qc 0; Q2Qc 0; Q2Qc 2; Q2Qc 2] |}
  /\ float_mean [Q2Qc 0; Q2Qc 2; Q2Qc 2; Q2Qc 0] = Fin 1.
Proof.
  split; [reflexivity|]. split; [|by vm_compute].
  destruct (click_total_iff_outer_ring Scenario.ward_A initial eq_refl) as [Hmean _].
  exact (Hmean _ _ _ eq_refl).
Defined.

(** C10, as stated, fails on a feature whose outer ring is empty: the
    centroid is a pair of NaN, not [null], and the click handler runs on to
    its request. *)
Lemma empty_ring_click_proceeds :
  calculateCentroid (Some [[]]) = Some {| longitude := NaN; latitude := NaN |}
  /\ click_suspended initial (click (Scenario.ward "X" (Some [[]])) initial)
  /\ sent (click (Scenario.ward "X" (Some [[]])) initial) !! 0%nat
     = Some (ward_prediction_request "X").
Proof.
  split; [by vm_compute|]. split; [|by vm_compute].
  do 4 eexists. vm_compute. reflexivity.
Qed.

(** It also fails on the mean: for three vertices at 0.1 the loop gives
    0.10000000000000002, which is not the double of their arithmetic mean,
    0.1. *)
Lemma centroid_is_rounded :
  calculateCentroid (Some [[(dec 1 10, dec 1 10); (dec 1 10, dec 1 10); (dec 1 10, dec 1 10)]])
  = Some {| longitude := Fin (Q2Qc (7205759403792795 # 72057594037927936));
            latitude := Fin (Q2Qc (7205759403792795 # 72057594037927936)) |}
  /\ StatsCards.mean [dec 1 10; dec 1 10; dec 1 10] = dec 1 10
  /\ binary64 (dec 1 10) = Q2Qc (3602879701896397 # 36028797018963968).
Proof.
  split; [by vm_compute|]. split; [|by vm_compute].
  apply Qc_is_canon. by vm_compute.
Qed.

End Centroid.

(** ** The statistics cards *)

Section Statistics.
Import Api StatsCards.

Lemma inject_Z_Qc_inj (n m : Z) : Q2Qc (inject_Z n) = Q2Qc (inject_Z m) -> n = m.
Proof.
  intros H. apply (f_equal this) in H. cbn in H.
  assert (Heq : (inject_Z n == inject_Z m)%Q).
  { rewrite <- (Qred_correct (inject_Z n)), <- (Qred_correct (inject_Z m)). by rewrite H. }
  unfold Qeq in Heq. cbn in Heq. lia.
Qed.

Lemma strict_eq_num_unique (v : JsVal) (n m : Z) :
  strict_eq_num v n = true -> strict_eq_num v m = true -> n = m.
Proof.
  destruct v as [| | |[|q]| | |]; cbn; try discriminate.
  intros Hn Hm. apply bool_decide_eq_true in Hn, Hm. subst q. by apply inject_Z_Qc_inj.
Qed.

Lemma plus_assign_stored (s : JsNum) (q : Qc) (v : JsVal) :
  v = JNum (Fin q) \/ (truthy v = false /\ q = 0) ->
  plus_assign (Some s) (or v (num 0)) = Some (num_add s (Fin q)).
Proof.
  intros [-> | [Hf ->]].
  - unfold or. cbn [truthy]. case_bool_decide as Hq; [|reflexivity].
    subst q. reflexivity.
  - by rewrite or_right.
Qed.

(** The callback on any entry that is not [null] or [undefined]. *)
Lemma visit_entry (c : Counters) (v : JsVal) :
  nullish v = false ->
  visit c v = Normal
    {| c_low := c_low c + (if has_level 0 v then 1 else 0);
       c_medium := c_medium c + (if has_level 1 v then 1 else 0);
       c_high := c_high c + (if has_level 2 v then 1 else 0);
       c_flood := c_flood c + (if expects_flood v then 1 else 0);
       c_sum := plus_assign (c_sum c) (or (own v "bayesianProbability") (num 0)) |}.
Proof.
  intros Hv. unfold visit. rewrite !get_not_nullish by assumption.
  cbn [mbind Completion_bind cbind]. unfold has_level, expects_flood.
  destruct c as [lo me hi fl su].
  pose proof (strict_eq_num_unique (own v "riskLevel")) as Huniq.
  destruct (strict_eq_num (own v "riskLevel") 0) eqn:H0,
           (strict_eq_num (own v "riskLevel") 1) eqn:H1,
           (strict_eq_num (own v "riskLevel") 2) eqn:H2;
    try (by specialize (Huniq 0%Z 1%Z H0 H1));
    try (by specialize (Huniq 0%Z 2%Z H0 H2));
    try (by specialize (Huniq 1%Z 2%Z H1 H2));
    destruct (truthy (own v "willFlood"));
    unfold add_probability, count_low, count_medium, count_high, count_flood;
    cbn [c_low c_medium c_high c_flood c_sum];
    f_equal; f_equal; lia.
Qed.

(** The callback on a region that stores the probability [q]. *)
Lemma visit_stored (c : Counters) (s : JsNum) (q : Qc) (v : JsVal) :
  stores_probability v q -> c_sum c = Some s ->
  visit c v = Normal
    {| c_low := c_low c + (if has_level 0 v then 1 else 0);
       c_medium := c_medium c + (if has_level 1 v then 1 else 0);
       c_high := c_high c + (if has_level 2 v then 1 else 0);
       c_flood := c_flood c + (if expects_flood v then 1 else 0);
       c_sum := Some (num_add s (Fin q)) |}.
Proof.
  intros [Hv Hq] Hs. rewrite visit_entry by assumption.
  by rewrite Hs, (plus_assign_stored s q).
Qed.

Lemma visit_throws (c : Counters) (v : JsVal) :
  nullish v = true -> visit c v = Throw TypeError.
Proof. intros Hv. unfold visit, get. by rewrite Hv. Qed.

Lemma count_cons (f : JsVal -> bool) (v : JsVal) (values : list JsVal) :
  count f (v :: values) = ((if f v then 1 else 0) + count f values)%nat.
Proof. unfold count. cbn. by destruct (f v). Qed.

(** The counts do not depend on the order of the entries; the sum does. *)
Lemma count_Permutation (f : JsVal -> bool) (values values' : list JsVal) :
  values ≡ₚ values' -> count f values = count f values'.
Proof.
  induction 1 as [|v l l' _ IH|x y l|l l' l'' _ IH1 _ IH2]; rewrite ?count_cons.
  - reflexivity.
  - by rewrite IH.
  - lia.
  - by rewrite IH1.
Qed.

Lemma forEach_stored (values : list JsVal) (probabilities : list Qc) (c : Counters)
    (s : JsNum) :
  Forall2 stores_probability values probabilities ->
  c_sum c = Some s ->
  forEach values c = Normal
    {| c_low := c_low c + count (has_level 0) values;
       c_medium := c_medium c + count (has_level 1) values;
       c_high := c_high c + count (has_level 2) values;
       c_flood := c_flood c + count expects_flood values;
       c_sum := Some (foldl (fun s x => num_add s (Fin x)) s probabilities) |}.
Proof.
  intros Hall. revert c s.
  induction Hall as [|v q values probabilities Hv _ IH]; intros c s Hs.
  - cbn. destruct c; cbn in *. subst.
    unfold count; cbn. do 2 f_equal; lia.
  - cbn [forEach]. rewrite (visit_stored c s q v Hv Hs).
    cbn [mbind Completion_bind cbind].
    rewrite (IH _ (num_add s (Fin q))) by reflexivity.
    cbn [c_low c_medium c_high c_flood foldl].
    rewrite !count_cons. do 2 f_equal; lia.
Qed.

(** C8, as the code has it: the cards are computed from the values of the
    prediction map, in whatever order the object lists them; they report
    the number of entries, the entries whose stored risk level is 0, 1 and 2
    (Low, Medium, High: there is no count for Critical) and the entries
    expected to flood, none of which depends on that order, and the mean of
    the stored probabilities as the loop computes it in double arithmetic
    (the sum in the order of the entries, divided by their number, times
    100), printed with one decimal. *)
Theorem calculateStats_counts (predictions : gmap string JsVal) (values : list JsVal)
    (probabilities : list Qc) :
  values ≡ₚ (map_to_list predictions).*2 ->
  Forall2 stores_probability values probabilities ->
  calculateStats_of values = Normal
    {| totalWards := size predictions;
       lowRisk := count (has_level 0) (map_to_list predictions).*2;
       mediumRisk := count (has_level 1) (map_to_list predictions).*2;
       highRisk := count (has_level 2) (map_to_list predictions).*2;
       floodExpected := count expects_flood (map_to_list predictions).*2;
       avgBayesianProb :=
         if bool_decide (0 < size predictions)%nat
         then toFixed1 (num_mul (float_mean probabilities) hundred)
         else Some "0.0"%string |}.
Proof.
  intros Hperm Hall. unfold calculateStats_of.
  rewrite (forEach_stored _ _ zero (Fin 0) Hall eq_refl).
  cbn [mbind Completion_bind cbind c_low c_medium c_high c_flood c_sum zero].
  pose proof (Forall2_length _ _ _ Hall) as Hlen.
  pose proof (Permutation_length Hperm) as Hsize.
  rewrite length_fmap, length_map_to_list in Hsize.
  rewrite !(count_Permutation _ _ _ Hperm), Hsize.
  f_equal. f_equal.
  case_bool_decide as Hpos; [|by vm_compute].
  cbn [mbind option_bind]. unfold float_mean, float_sum, of_nat.
  by rewrite <- Hlen, Hsize.
Qed.

Lemma calculateStats_counts_witness :
  Forall2 stores_probability (map_to_list Scenario.low_high_high).*2
          [dec 6 10; dec 5 100; dec 5 10]
  /\ exists s, calculateStats Scenario.low_high_high = Normal s
       /\ lowRisk s = 1%nat /\ mediumRisk s = 0%nat /\ highRisk s = 2%nat
       /\ avgBayesianProb s = Some "38.3"%string.
Proof.
  assert (H : Forall2 stores_probability (map_to_list Scenario.low_high_high).*2
                [dec 6 10; dec 5 100; dec 5 10]).
  { vm_compute map_to_list. cbn [fmap list_fmap snd].
    repeat (constructor; [split; [reflexivity|left; reflexivity]|]).
    constructor. }
  split; [exact H|].
  eexists. split; [exact (calculateStats_counts _ _ _ (Permutation_refl _) H)|].
  by vm_compute.
Defined.

(** C8, as stated, fails on a region of level 2 and probability 0.82: its
    category by probability is Critical, the cards count it as High and
    have no Critical count, and the mean is shown as the text [82.0]. *)
Lemma critical_region_counted_high :
  getRiskLevel (own Scenario.critical_formatted "bayesianProbability") = Some "Critical"%string
  /\ calculateStats Scenario.one_critical_region = Normal
       {| totalWards := 1; lowRisk := 0; mediumRisk := 0; highRisk := 1;
          floodExpected := 1; avgBayesianProb := Some "82.0"%string |}.
Proof. split; by vm_compute. Qed.

(** It also fails on the mean: the same three regions, with probabilities
    0.0485, 0.769 and 0.687, are shown as 50.2 in one order of the entries
    and as 50.1 in another, while their arithmetic mean is 0.5015. *)
Lemma mean_depends_on_order :
  calculateStats_of
    [Scenario.region 0 (dec 485 10000); Scenario.region 2 (dec 769 1000);
     Scenario.region 2 (dec 687 1000)]
  = Normal {| totalWards := 3; lowRisk := 1; mediumRisk := 0; highRisk := 2;
              floodExpected := 0; avgBayesianProb := Some "50.2"%string |}
  /\ calculateStats_of
       [Scenario.region 2 (dec 769 1000); Scenario.region 2 (dec 687 1000);
        Scenario.region 0 (dec 485 10000)]
     = Normal {| totalWards := 3; lowRisk := 1; mediumRisk := 0; highRisk := 2;
                 floodExpected := 0; avgBayesianProb := Some "50.1"%string |}
  /\ mean [dec 485 10000; dec 769 1000; dec 687 1000] = dec 5015 10000.
Proof.
  split; [by vm_compute|]. split; [by vm_compute|].
  apply Qc_is_canon. by vm_compute.
Qed.

End Statistics.

(** ** The prediction map over a session *)

Section Session.
Import Api MapComponent App.

Lemma click_predictions (feature : Feature) (st : AppState) :
  predictions (click feature st) = predictions st.
Proof.
  unfold click. destruct (calculateCentroid _) as [c|];
    by rewrite (proj1 (effects_keeps _ _ _)).
Qed.






Lemma click_resumed_keeps (wardName wardCode : string) (c : Centroid)
    (r : Completion JsVal) (st : AppState) :
  selectedWard (click_resumed wardName wardCode c r st) = selectedWard st
  /\ (predictions (click_resumed wardName wardCode c r st) = predictions st
      \/ exists enhanced,
           predictions (click_resumed wardName wardCode c r st)
           = <[wardName := enhanced]> (predictions st)).
Proof.
  unfold click_resumed. destruct (_ ≫= _) as [enhanced|e]; cbn; eauto.
Qed.

Lemma panel_resumed_keeps (now wardCode : string) (r : Completion (JsVal * JsVal))
    (st : AppState) :
  selectedWard (panel_resumed now wardCode r st) = selectedWard st
  /\ (predictions (panel_resumed now wardCode r st) = predictions st
      \/ exists formatted,
           predictions (panel_resumed now wardCode r st)
           = <[wardCode := formatted]> (predictions st)).
Proof.
  unfold panel_resumed. destruct (_ ≫= _) as [[formatted weatherData]|e]; cbn; eauto.
Qed.

Lemma dom_grows_insert (m m' : gmap string JsVal) (k : string) :
  m' = m \/ (exists v, m' = <[k := v]> m) -> dom m ⊆ dom m'.
Proof. intros [-> | [v ->]]; [done|]. rewrite dom_insert_L. set_solver. Qed.

(** Every event but the answer to a bulk load keeps or grows the domain. *)
Lemma step_domain (st st' : AppState) (ev : Event) :
  step st ev = Some st' -> ~ answers_bulk_load st ev ->
  dom (predictions st) ⊆ dom (predictions st').
Proof.
  destruct ev as [feature| |id second o now]; cbn.
  - intros [= <-] _. by rewrite click_predictions.
  - by intros [= <-] _.
  - unfold settle. destruct (inflight st !! id) as [[wn wc c call|wc p w|call]|] eqn:Hw.
    + intros Hst _. destruct (resume call o) as [r|? ?]; injection Hst as <-; [|done].
      eapply dom_grows_insert. exact (proj2 (click_resumed_keeps wn wc c r (settled id st))).
    + intros Hst _.
      destruct second, p as [pc|pv], w as [wcall|wv]; cbn in Hst;
        try (by injection Hst as <-);
        repeat match type of Hst with
               | context [resume ?c ?o] => destruct (resume c o) as [[?|?]|? ?]
               end;
        injection Hst as <-; try done;
        eapply dom_grows_insert;
        exact (proj2 (panel_resumed_keeps now wc _ (settled id st))).
    + intros _ Hno. exfalso. apply Hno. eauto.
    + by intros [= <-] _.
Qed.




(** Over a whole session without bulk loads the domain only grows. *)
Lemma effects_no_bulk_load (before : option string) (moved : bool) (st : AppState) :
  no_bulk_load st -> no_bulk_load (effects before moved st).
Proof.
  intros Hno id call. unfold effects.
  destruct (nonempty (selectedWard st)) as [selected|]; [|apply Hno].
  destruct (bool_decide (before = selectedWard st)); cbn.
  - destruct moved; apply Hno.
  - rewrite lookup_insert. case_decide; [discriminate|apply Hno].
Qed.

Lemma step_no_bulk_load (st st' : AppState) (ev : Event) :
  step st ev = Some st' -> ev <> LoadAllPredictions ->
  no_bulk_load st -> no_bulk_load st'.
Proof.
  intros Hst Hev Hno. destruct ev as [feature| |id second o now]; [| done |]; cbn in Hst.
  - injection Hst as <-. unfold click.
    destruct (calculateCentroid _) as [c|]; apply effects_no_bulk_load; [|exact Hno].
    intros id call. cbn. rewrite lookup_insert. case_decide; [discriminate|apply Hno].
  - unfold settle in Hst.
    destruct (inflight st !! id) as [[wn wc c call|wc p w|call]|] eqn:Hw.
    + destruct (resume call o) as [r|? ?]; injection Hst as <-; intros id' call'.
      * unfold click_resumed. destruct (_ ≫= _); cbn;
          rewrite lookup_delete; case_decide; [discriminate|apply Hno|discriminate|apply Hno].
      * cbn. rewrite lookup_insert. case_decide; [discriminate|apply Hno].
    + destruct second, p as [pc|pv], w as [wcall|wv]; cbn in Hst;
        try (by injection Hst as <-);
        repeat match type of Hst with
               | context [resume ?c ?o] => destruct (resume c o) as [[?|?]|? ?]
               end;
        injection Hst as <-; intros id' call';
        unfold panel_resumed; cbn;
        try (destruct (formatFloodPrediction _ _); cbn);
        rewrite ?lookup_delete, ?lookup_insert; case_decide;
        try discriminate; apply Hno.
    + by destruct (Hno id call).
    + by injection Hst as <-.
Qed.

Lemma session_domain_grows (evs : list Event) (st st' : AppState) :
  steps st evs = Some st' -> LoadAllPredictions ∉ evs -> no_bulk_load st ->
  dom (predictions st) ⊆ dom (predictions st').
Proof.
  revert st. induction evs as [|ev evs IH]; intros st Hsteps Hev Hno; cbn in Hsteps.
  - by injection Hsteps as <-.
  - destruct (step st ev) as [st1|] eqn:Hst; [|discriminate]. cbn in Hsteps.
    apply not_elem_of_cons in Hev as [Hev Hevs].
    etrans.
    + apply (step_domain st st1 ev Hst). destruct ev; cbn; try tauto.
      intros [call Hcall]. by destruct (Hno id call).
    + apply (IH st1 Hsteps Hevs). by apply (step_no_bulk_load st st1 ev).
Qed.



End Session.

(** ** Late answers *)

Section LateAnswers.
Import Api MapComponent App.

(** When the selection changes, the click also suspends the panel's load,
    under the number after the handler's. *)
Lemma click_inflight_panel (feature : Feature) (st : AppState) (c : Centroid) :
  calculateCentroid (coordinates feature) = Some c ->
  selectedWard st <> Some (str_or (ward_name_full (properties feature)) "Unknown Ward") ->
  let wardName := str_or (ward_name_full (properties feature)) "Unknown Ward" in
  inflight (click feature st) !! S (next st)
  = Some (PanelLoad wardName (Running (getWardFloodPrediction wardName))
                             (Running (getWardCurrentWeather wardName)))
  /\ (S (next st) < next (click feature st))%nat.
Proof.
  intros Hc Hsel wardName. unfold click. rewrite Hc. unfold effects.
  cbn [selectedWard suspend send setWardCoordinates setLoading setSelectedWard].
  subst wardName. rewrite str_or_nonempty by discriminate.
  rewrite bool_decide_eq_false_2 by exact Hsel.
  split; [|cbn; lia].
  unfold loadWardPrediction. cbn [inflight suspend next]. apply lookup_insert_eq.
Qed.




End LateAnswers.

(** ** Selecting a ward, end to end *)

Section EndToEnd.
Import Api MapComponent App.

















End EndToEnd.

(* ===================================================================== *)
(** * Further properties of the code *)
(* ===================================================================== *)

(** ** Tiers, colours and labels *)

Section Labels.
Import Api MapComponent Display.

Ltac order :=
  repeat case_bool_decide; try reflexivity; try done;
  try (exfalso; unfold Qclt, Qcle, dec in *; cbn in *;
       repeat match goal with
              | H : context [Qred ?q] |- _ =>
                  let v := eval vm_compute in (Qred q) in change (Qred q) with v in H
              end; lra).

(** X1: every tier [getRiskLevel] can return has a colour of its own in
    [getRiskColor] of [api.js]: red for Critical, orange for High, yellow
    for Medium, green for Low, and never the grey of an unknown level. *)
Theorem risk_level_has_own_colour (probability : JsVal) (level : string) :
  getRiskLevel probability = Some level ->
  exists c,
    Display.getRiskColor (JStr level) = Normal c
    /\ c <> "#CCCCCC"%string
    /\ (c = "#FF0000"%string <-> level = "Critical"%string)
    /\ (c = "#FF6600"%string <-> level = "High"%string)
    /\ (c = "#FFFF00"%string <-> level = "Medium"%string)
    /\ (c = "#00FF00"%string <-> level = "Low"%string).
Proof.
  unfold getRiskLevel. destruct (ToNumber probability) as [n|]; [|discriminate].
  cbn [mbind option_bind].
  destruct (num_ge n _); [|destruct (num_ge n _); [|destruct (num_ge n _)]];
    intros [= <-]; eexists; (split; [reflexivity|]); by vm_compute.
Qed.

Lemma risk_level_has_own_colour_witness :
  getRiskLevel (JNum (Fin (dec 82 100))) = Some "Critical"%string
  /\ Display.getRiskColor (JStr "Critical") = Normal "#FF0000"%string.
Proof.
  split; [reflexivity|].
  destruct (risk_level_has_own_colour (JNum (Fin (dec 82 100))) "Critical" eq_refl)
    as (c & Hc & _ & Hred & _).
  rewrite Hc. f_equal. by apply Hred.
Defined.

(** X2: both derivations of a tier from a probability are monotone: a
    higher probability never gets a lower tier, in [getRiskLevel] and in
    the click handler of the map. *)
Theorem tiers_monotone (p q : Qc) (a b a' b' : string) :
  p ≤ q ->
  getRiskLevel (JNum (Fin p)) = Some a -> getRiskLevel (JNum (Fin q)) = Some b ->
  bayesian_risk_level (JNum (Fin p)) = Some a' ->
  bayesian_risk_level (JNum (Fin q)) = Some b' ->
  (tier_rank a <= tier_rank b)%nat /\ (tier_rank a' <= tier_rank b')%nat.
Proof.
  intros Hpq. rewrite !getRiskLevel_number, !bayesian_risk_level_number.
  intros [= <-] [= <-] [= <-] [= <-].
  split; repeat case_bool_decide; first [ by (vm_compute; lia) | order ].
Qed.

Lemma tiers_monotone_witness :
  dec 2 10 ≤ dec 75 100
  /\ (tier_rank "Medium" <= tier_rank "Critical")%nat.
Proof.
  assert (H : dec 2 10 ≤ dec 75 100) by (by vm_compute).
  split; [exact H|].
  by apply (tiers_monotone (dec 2 10) (dec 75 100) "Medium" "Critical" "Low" "High" H).
Defined.

(** X3: the panel's label and colour of a formatted prediction agree on
    every stored level (Unknown exactly when grey), and a raw prediction
    without a tree-ensemble level is shown as "Low Risk" in green, never
    as Unknown. *)
Theorem formatted_level_display (now : string) (raw : JsVal) (fields : list (string * JsVal)) :
  formatFloodPrediction now raw = Normal (JObj fields) ->
  (getRiskLevelText (assoc fields "riskLevel") = "Unknown"%string
   <-> getFloodRiskColor (assoc fields "riskLevel") = "#CCCCCC"%string)
  /\ (truthy (own (or (own raw "random_forest") (JObj [])) "flood_risk_level") = false ->
      getRiskLevelText (assoc fields "riskLevel") = "Low Risk"%string
      /\ getFloodRiskColor (assoc fields "riskLevel") = "#00FF00"%string).
Proof.
  intros Hfmt. destruct (truthy raw) eqn:Ht.
  - rewrite formatFloodPrediction_truthy in Hfmt by assumption.
    injection Hfmt as <-. cbn [assoc bool_decide decide_rel]. split.
    + unfold getRiskLevelText, getFloodRiskColor.
      by repeat destruct (strict_eq_num _ _).
    + intros Hmissing. rewrite (or_right _ _ Hmissing). by vm_compute.
  - rewrite formatFloodPrediction_falsy in Hfmt by assumption. discriminate Hfmt.
Qed.

Lemma formatted_level_display_witness :
  exists fields,
    formatFloodPrediction Scenario.noon (JObj []) = Normal (JObj fields)
    /\ getRiskLevelText (assoc fields "riskLevel") = "Low Risk"%string.
Proof.
  eexists. split; [reflexivity|].
  by apply (formatted_level_display Scenario.noon (JObj []) _ eq_refl).
Defined.

End Labels.

(** ** Rainfall scales *)

Section Scales.
Import Api Display Rainfall.

Ltac scale :=
  unfold Qclt, Qcle in *; cbn in *;
  repeat match goal with
         | H : context [Qred ?q] |- _ =>
             let v := eval vm_compute in (Qred q) in change (Qred q) with v in H
         | |- context [Qred ?q] =>
             let v := eval vm_compute in (Qred q) in change (Qred q) with v
         end;
  lra.

(** X4: the weather widget and the ward weather details name the same
    rainfall differently: their texts agree exactly when there is no rain
    or more than 50 mm; for every rainfall in between (above 0, at most
    50) the text of the widget is exactly one step more severe on the
    scale Drizzle, Light, Moderate, Heavy, Extreme. *)
Theorem rainfall_scales_agree_iff (r : Qc) :
  exists status intensity,
    getRainfallStatus (JNum (Fin r)) = Some status
    /\ getRainfallIntensity (JNum (Fin r)) = Some intensity
    /\ (status.2 = intensity.1 <-> r ≤ 0 \/ Q2Qc (inject_Z 50) < r)
    /\ (0 < r -> r ≤ Q2Qc (inject_Z 50) ->
        severity status.2 = S (severity intensity.1)).
Proof.
  unfold getRainfallStatus, getRainfallIntensity, gt, num_gt.
  cbn [ToNumber mbind option_bind].
  do 2 eexists. split; [reflexivity|]. split; [reflexivity|].
  repeat case_bool_decide; cbn [fst snd];
    (split;
     [split; [intros Heq; try discriminate Heq | intros [Hr|Hr]]
     |intros Hlow Hhigh]);
    try reflexivity; try (left; scale); try (right; scale); try (exfalso; scale).
Qed.

End Scales.

(** ** Calls that answer every failure themselves *)

Section Answers.
Import Api Fallbacks.

Variable net : Request -> Completion Response.

(** X6: the two health checks send one request to [/health] and replace
    every failure by their own fixed message. *)
Theorem health_checks_translate :
  (run net checkServerHealth).1 = [health_request]
  /\ (run net checkFloodApiHealth).1 = [health_request]
  /\ (forall e, (run net checkServerHealth).2 = Throw e ->
        e = Error [Lit "Backend server is not responding. Make sure your FastAPI server is running on http://127.0.0.1:8000"])
  /\ (forall e, (run net checkFloodApiHealth).2 = Throw e ->
        e = Error [Lit "Flood prediction API is not responding. Make sure the server is running on http://127.0.0.1:8000"]).
Proof.
  unfold checkServerHealth, checkFloodApiHealth, health_request. cbn.
  destruct (net _) as [response|error]; cbn; repeat split;
    intros e [= <-]; reflexivity.
Qed.

(** X7: [getCurrentWeather] never throws and ignores its coordinates: it
    always asks for ward A, and answers a failure with its fallback
    reading. *)
Theorem getCurrentWeather_always_answers (lat lon : JsVal) :
  exists v,
    run net (getCurrentWeather lat lon) = ([default_weather_request], Normal v)
    /\ (forall response, net default_weather_request = Normal response -> v = data response)
    /\ (forall e, net default_weather_request = Throw e -> v = fallback_weather).
Proof.
  unfold getCurrentWeather, default_weather_request. cbn.
  destruct (net _) as [response|error]; cbn; eexists; (split; [reflexivity|]);
    split; intros ? [= <-]; reflexivity.
Qed.

(** X8: [getWardCurrentStatus] never throws.  It reports the status
    [current], with risk level High or Low, exactly when the prediction
    arrived with a combined assessment; any failure of the request and any
    answer without that part become the record [no_recent_data] with risk
    level Unknown, probability 0 and the time of the call. *)
Theorem getWardCurrentStatus_always_answers (now wardId : string) :
  exists v,
    run net (getWardCurrentStatus now wardId)
    = ([ward_prediction_request (encodeURIComponent wardId)], Normal v)
    /\ ((own v "status" = JStr "current"
         /\ (own v "risk_level" = JStr "High" \/ own v "risk_level" = JStr "Low"))
        \/ (own v "status" = JStr "no_recent_data"
            /\ own v "risk_level" = JStr "Unknown"
            /\ own v "current_flood_probability" = num 0
            /\ own v "last_updated" = JStr now))
    /\ (own v "status" = JStr "current" <->
        exists response,
          net (ward_prediction_request (encodeURIComponent wardId)) = Normal response
          /\ nullish (data response) = false
          /\ nullish (own (data response) "combined_assessment") = false).
Proof.
  unfold getWardCurrentStatus, getWardFloodPrediction, ward_prediction_request. cbn.
  destruct (net _) as [response|error]; cbn.
  - unfold get. destruct (nullish (data response)) eqn:Hd; cbn.
    + eexists. split; [reflexivity|]. split; [right; by vm_compute|].
      split; [discriminate|]. intros (r & [= <-] & Hr & _). congruence.
    + destruct (nullish (own (data response) "combined_assessment")) eqn:Hc; cbn.
      * eexists. split; [reflexivity|]. split; [right; by vm_compute|].
        split; [discriminate|]. intros (r & [= <-] & _ & Hr). congruence.
      * eexists. split; [reflexivity|]. split.
        -- left. split; [reflexivity|]. cbn. destruct (truthy _); eauto.
        -- split; [|reflexivity]. intros _. eauto.
  - assert (Hno : forall v : JsVal,
              own v "status" = JStr "no_recent_data" ->
              (own v "status" = JStr "current" <->
               exists response : Response,
                 Throw error = Normal response
                 /\ nullish (data response) = false
                 /\ nullish (own (data response) "combined_assessment") = false)).
    { intros v Hv. rewrite Hv. split; [discriminate|]. by intros (? & [=] & _). }
    repeat destruct (status_is error _); cbn;
      eexists; (split; [reflexivity|]); (split; [right; by vm_compute|]);
      by apply Hno.
Qed.

End Answers.

Section Series.
Import Api Fallbacks.

Lemma map_items_length (f : JsVal -> Completion JsVal) (items vs : list JsVal) :
  map_items f items = Normal vs -> length vs = length items.
Proof.
  revert vs. induction items as [|item rest IH]; intros vs; cbn.
  - by intros [= <-].
  - destruct (f item) as [v|e]; cbn; [|discriminate].
    destruct (map_items f rest) as [vs'|e]; cbn; [|discriminate].
    intros [= <-]. cbn. f_equal. by apply IH.
Qed.

(** X9: whatever the forecast request brings (a failure, no list, a list
    of any length, items without rain), [getRealRainfallData] returns an
    array of exactly 15 values, all zero when the forecast failed; so
    [predictFloodRisk] never rejects its result and sends it to
    [/predict]. *)
Theorem getRealRainfallData_gives_15 (forecast : Completion JsVal)
    (net : Request -> Completion Response) :
  series_of_15 (getRealRainfallData_resumed forecast)
  /\ (forall e, forecast = Throw e -> getRealRainfallData_resumed forecast = no_rain)
  /\ (run net (predictFloodRisk (getRealRainfallData_resumed forecast))).1
     = [ {| method := POST; url := "/predict";
            body := Some (JObj [("rainfall_values"%string,
                                 getRealRainfallData_resumed forecast)]) |} ].
Proof.
  assert (H15 : series_of_15 (getRealRainfallData_resumed forecast)).
  { unfold getRealRainfallData_resumed.
    destruct (forecast ≫= series_of_forecast) as [[series|]|e] eqn:Hs;
      try (by eexists).
    destruct forecast as [f|e]; cbn in Hs; [|discriminate].
    unfold series_of_forecast in Hs.
    destruct (truthy f); [|discriminate]. destruct (get f "list") as [l|e]; cbn in Hs;
      [|discriminate].
    destruct (truthy l); [|discriminate]. destruct l; try discriminate Hs.
    destruct (map_items rainfall_of (take 15 items)) as [vs|e] eqn:Hm; cbn in Hs;
      [|discriminate].
    injection Hs as <-. eexists. split; [reflexivity|].
    apply map_items_length in Hm. rewrite length_take in Hm.
    rewrite length_take, length_app, length_replicate. lia. }
  split; [exact H15|]. split; [by intros e ->|].
  unfold predictFloodRisk.
  destruct (invalid_series (getRealRainfallData_resumed forecast)) eqn:Hbad.
  - apply invalid_series_spec in Hbad. contradiction.
  - cbn. by destruct (net _).
Qed.

End Series.

(** ** The ward tables *)

Section Tables.
Import Api Wards.

Lemma own_entry_None {A} (table : list (string * A)) (key : string) :
  own_entry table key = None <-> key ∉ table.*1.
Proof.
  induction table as [|[k v] rest IH]; cbn.
  - split; [intros _; apply not_elem_of_nil|done].
  - rewrite not_elem_of_cons. case_bool_decide; [split; [done|intros [? _]; congruence]|].
    rewrite IH. split; [by split|by intros [_ ?]].
Qed.

Lemma own_entry_Some {A} (table : list (string * A)) (key : string) (v : A) :
  own_entry table key = Some v -> (key, v) ∈ table.
Proof.
  induction table as [|[k w] rest IH]; cbn; [discriminate|].
  case_bool_decide as Hk.
  - intros [= <-]. subst k. apply elem_of_cons. by left.
  - intros H. apply elem_of_cons. right. by apply IH.
Qed.

(** X10: [getWardCoordinates] gives the city centre exactly for the
    identifiers that are neither in [MUMBAI_WARD_CODES] nor the name of a
    member of [Object.prototype]; for such a name ([constructor],
    [toString], ...) it returns the inherited member, not coordinates.
    [getAvailableWards] gives each of the 24 codes once, in order, each
    with its name from [WARD_NAMES], never the code itself as a name. *)
Theorem ward_tables_cover_codes (code : string) :
  (getWardCoordinates code = Some mumbai_center
   <-> (code ∉ MUMBAI_WARD_CODES) /\ (code ∉ object_prototype_members))
  /\ (getWardCoordinates code = None <-> code ∈ object_prototype_members)
  /\ exists wards,
       getAvailableWards = Done (Normal (Some wards))
       /\ ward_id <$> wards = MUMBAI_WARD_CODES
       /\ NoDup (ward_id <$> wards)
       /\ Forall (fun w => own_entry WARD_NAMES (ward_id w) = Some (ward_name w)
                           /\ ward_name w <> ward_id w) wards.
Proof.
  assert (Hcodes : fst <$> MUMBAI_WARD_COORDINATES = MUMBAI_WARD_CODES) by reflexivity.
  assert (Hall : Forall (fun kp : string * Place => kp.2 <> mumbai_center)
                        MUMBAI_WARD_COORDINATES).
  { repeat (constructor;
            [intros H; apply (f_equal place_name) in H; discriminate H|]).
    constructor. }
  assert (Hdisjoint : Forall (fun k : string => k ∉ object_prototype_members)
                             MUMBAI_WARD_CODES).
  { repeat (constructor; [apply (bool_decide_unpack _); by vm_compute|]). constructor. }
  rewrite Forall_forall in Hall. rewrite Forall_forall in Hdisjoint.
  split; [|split].
  - unfold getWardCoordinates, lookup_table.
    destruct (own_entry MUMBAI_WARD_COORDINATES code) as [p|] eqn:Hl.
    + apply own_entry_Some in Hl. split.
      * intros [= ->]. exfalso. by apply (Hall _ Hl).
      * intros [Hout _]. exfalso. apply Hout. rewrite <- Hcodes.
        by apply (list_elem_of_fmap_2' fst _ (code, p)).
    + apply own_entry_None in Hl. rewrite Hcodes in Hl.
      case_bool_decide as Hm; split; try done. by intros [_ ?].
  - unfold getWardCoordinates, lookup_table.
    destruct (own_entry MUMBAI_WARD_COORDINATES code) as [p|] eqn:Hl.
    + apply own_entry_Some in Hl. split; [discriminate|]. intros Hm. exfalso.
      apply (Hdisjoint code); [|exact Hm]. rewrite <- Hcodes.
      by apply (list_elem_of_fmap_2' fst _ (code, p)).
    + by case_bool_decide.
  - eexists. split; [by vm_compute|]. split; [reflexivity|]. split.
    + apply (bool_decide_unpack _). by vm_compute.
    + repeat (constructor; [split; [reflexivity|by vm_compute]|]). constructor.
Qed.

End Tables.

(** ** The inputs of the bulk analysis *)

Section WardData.
Import Api Wards.

(** X11: [createWardData] builds one record per ward identifier, in order,
    each with the given rainfall, a truthy tide height and a truthy season:
    an absent or zero tide height becomes 2.0, and an absent or empty
    season becomes the season of the current month. *)
Theorem createWardData_defaults (month : nat) (wardIds : list JsVal)
    (rainfallMm tideHeightM season : JsVal) :
  let wards := createWardData month wardIds rainfallMm tideHeightM season in
  (fun w => own w "ward_id") <$> wards = wardIds
  /\ Forall (fun w => own w "rainfall_mm" = rainfallMm
                      /\ truthy (own w "tide_height_m") = true
                      /\ truthy (own w "season") = true) wards
  /\ (truthy tideHeightM = false ->
      Forall (fun w => own w "tide_height_m" = num 2) wards)
  /\ (truthy season = false ->
      Forall (fun w => own w "season" = JStr (getCurrentSeason month)) wards).
Proof.
  cbn zeta. unfold createWardData.
  assert (Hseason : truthy (JStr (getCurrentSeason month)) = true).
  { unfold getCurrentSeason.
    by repeat match goal with |- context [if ?b then _ else _] => destruct b end. }
  assert (Hdef : forall v, truthy v = false -> truthy (default_to JNull v) = false).
  { by intros []. }
  assert (Hor : forall a d, truthy d = true -> truthy (or a d) = true).
  { intros a d Hd. unfold or. by destruct (truthy a) eqn:Ha. }
  repeat split.
  - induction wardIds as [|w rest IH]; [reflexivity|]. cbn. f_equal. exact IH.
  - apply Forall_fmap, Forall_true. intros w. cbn. repeat split.
    + by apply Hor.
    + by apply Hor.
  - intros Ht. apply Forall_fmap, Forall_true. intros w. cbn.
    apply or_right. by apply Hdef.
  - intros Hs. apply Forall_fmap, Forall_true. intros w. cbn.
    apply or_right. by apply Hdef.
Qed.

End WardData.

(** ** The bulk analysis of the ward demo *)

Section BulkAnalysis.
Import Api Bulk.

Variable net : Request -> Completion Response.

Lemma ward_prediction_two_levels (item wardId : JsVal) (p : WardPrediction) :
  ward_prediction item = Normal (wardId, p) -> two_levels p.
Proof.
  unfold ward_prediction, get.
  destruct (nullish item); cbn; [discriminate|].
  destruct (nullish (own item "combined_assessment")); cbn; [discriminate|].
  intros [= _ <-]. unfold two_levels. cbn. destruct (truthy _); eauto.
Qed.

Lemma collect_two_levels (items : list JsVal) (acc m : gmap string WardPrediction) :
  map_Forall (fun _ p => two_levels p) acc ->
  collect items acc = Normal (Some m) ->
  map_Forall (fun _ p => two_levels p) m.
Proof.
  revert acc. induction items as [|item rest IH]; intros acc Hacc; cbn.
  - by intros [= <-].
  - destruct (ward_prediction item) as [[wardId p]|e] eqn:Hp; cbn; [|discriminate].
    destruct (App.ToPropertyKey wardId) as [key|]; [|discriminate].
    apply IH. apply map_Forall_insert_2; [|exact Hacc].
    by apply ward_prediction_two_levels in Hp.
Qed.

Lemma predictMultipleWards_two_levels (wardsData : JsVal) (r : BulkResult) :
  (run net (predictMultipleWards wardsData)).2 = Normal (Some r) ->
  map_Forall (fun _ p => two_levels p) (ward_predictions r).
Proof.
  unfold predictMultipleWards, getAllWardsFloodPrediction. cbn.
  destruct (net _) as [response|e]; cbn.
  - unfold transform. destruct (get (data response) "predictions") as [ps|e] eqn:Hps; cbn.
    + destruct ps; cbn; try discriminate.
      destruct (collect items ∅) as [[m|]|e] eqn:Hc; cbn.
      * destruct (get (data response) "summary") as [s|e]; cbn; [|discriminate].
        destruct (get (data response) "timestamp") as [t|e]; cbn; [|discriminate].
        intros [= <-]. cbn. eapply collect_two_levels; [|exact Hc].
        apply map_Forall_empty.
      * destruct (get (data response) "summary") as [s|e]; cbn; [|discriminate].
        destruct (get (data response) "timestamp") as [t|e]; cbn; discriminate.
      * discriminate.
    + discriminate.
  - destruct (status_is e 503); cbn; discriminate.
Qed.

Lemma colour_all_two_levels (entries : list (string * WardPrediction)) (acc : gmap string Tile) :
  Forall (fun kp => two_levels kp.2) entries ->
  map_Forall (fun _ t => orange_or_green t) acc ->
  exists m,
    colour_all entries acc = Normal m
    /\ map_Forall (fun _ t => orange_or_green t) m
    /\ dom m = dom acc ∪ list_to_set entries.*1.
Proof.
  revert acc. induction entries as [|[k p] rest IH]; intros acc Hall Hacc;
    cbn [colour_all fmap list_fmap].
  - eexists. split; [reflexivity|]. split; [exact Hacc|].
    cbn. by rewrite union_empty_r_L.
  - apply Forall_cons in Hall as [Hp Hrest]. cbn in Hp.
    assert (Hc : exists c, Display.getRiskColor (JStr (risk_level p)) = Normal c
                           /\ orange_or_green {| tile := p; tile_color := c |}).
    { destruct Hp as [Hp|Hp]; rewrite Hp; eexists; (split; [reflexivity|]).
      - left. by split.
      - right. by split. }
    destruct Hc as (c & -> & Hc). cbn.
    destruct (IH (<[k := {| tile := p; tile_color := c |}]> acc) Hrest) as (m & Hm & Hgood & Hdom).
    { by apply map_Forall_insert_2. }
    exists m. split; [exact Hm|]. split; [exact Hgood|].
    rewrite Hdom, dom_insert_L. cbn [fmap list_fmap fst list_to_set].
    by rewrite (union_comm_L {[k]} (dom acc)), union_assoc_L.
Qed.

Lemma filter_none {A} (f : A -> bool) (l : list A) :
  Forall (fun x => f x = false) l -> length (List.filter f l) = 0%nat.
Proof.
  induction 1 as [|x l Hx _ IH]; [reflexivity|]. cbn. by rewrite Hx.
Qed.

Lemma filter_either {A} (f g : A -> bool) (l : list A) :
  Forall (fun x => f x = negb (g x)) l ->
  (length (List.filter f l) + length (List.filter g l) = length l)%nat.
Proof.
  induction 1 as [|x l Hx _ IH]; [reflexivity|]. cbn. rewrite Hx.
  destruct (g x); cbn; lia.
Qed.

(** X12: whatever ward data is passed and whatever the backend answers, a
    bulk analysis that succeeds colours every ward of the answer orange
    (High) or green (Low), since [predictMultipleWards] assigns no other
    level: the summary's Critical and Medium counters are 0, High and Low
    add up to the number of wards, and the loading flag is cleared. *)
Theorem bulk_analysis_two_colours (wardsData : JsVal) (r : BulkResult) (st : Demo) :
  (run net (predictMultipleWards wardsData)).2 = Normal (Some r) ->
  let st' := handleBulkPrediction_resumed (Normal r) st in
  loading st' = false /\ error st' = error st
  /\ dom (wardPredictions st') = dom (ward_predictions r)
  /\ map_Forall (fun _ t => orange_or_green t) (wardPredictions st')
  /\ summary_count (wardPredictions st') "Critical" = 0%nat
  /\ summary_count (wardPredictions st') "Medium" = 0%nat
  /\ (summary_count (wardPredictions st') "High"
      + summary_count (wardPredictions st') "Low" = size (wardPredictions st'))%nat
  /\ (forall wardId, wardId ∈ dom (ward_predictions r) ->
        backgroundColor (getWardStyle (wardPredictions st') wardId)
          ∈ ["#FF6600"; "#00FF00"]%string).
Proof.
  intros Hrun. apply predictMultipleWards_two_levels in Hrun.
  destruct (colour_all_two_levels (map_to_list (ward_predictions r)) ∅) as (m & Hm & Hgood & Hdom).
  { apply Forall_forall. intros [k p] Hkp. apply elem_of_map_to_list in Hkp.
    by apply (Hrun k p). }
  { apply map_Forall_empty. }
  cbn zeta. unfold handleBulkPrediction_resumed. cbn [mbind Completion_bind cbind].
  rewrite Hm. cbn [wardPredictions loading error].
  assert (Hvalues : Forall orange_or_green (map_to_list m).*2).
  { apply Forall_fmap, Forall_forall. intros [k t] Hkt. apply elem_of_map_to_list in Hkt.
    by apply (Hgood k t). }
  split; [reflexivity|]. split; [reflexivity|]. split.
  { rewrite Hdom, dom_empty_L, union_empty_l_L. apply leibniz_equiv. symmetry. apply dom_alt. }
  split; [exact Hgood|]. unfold summary_count.
  split; [|split; [|split]].
  - apply filter_none. eapply Forall_impl; [exact Hvalues|].
    intros t [[Ht _]|[Ht _]]; rewrite Ht; reflexivity.
  - apply filter_none. eapply Forall_impl; [exact Hvalues|].
    intros t [[Ht _]|[Ht _]]; rewrite Ht; reflexivity.
  - rewrite filter_either.
    + by rewrite length_fmap, length_map_to_list.
    + eapply Forall_impl; [exact Hvalues|].
      intros t [[Ht _]|[Ht _]]; rewrite Ht; reflexivity.
  - intros wardId Hin. unfold getWardStyle.
    assert (Hin' : wardId ∈ dom m).
    { rewrite Hdom, dom_empty_L, union_empty_l_L. by apply dom_alt. }
    apply elem_of_dom in Hin' as [t Ht]. rewrite Ht. cbn.
    destruct (Hgood _ _ Ht) as [[_ ->]|[_ ->]]; repeat constructor.
Qed.

End BulkAnalysis.

Section BulkExamples.
Import Api Bulk Examples.

Lemma bulk_analysis_two_colours_witness :
  (run (always (Scenario.ok two_wards)) (predictMultipleWards JUndefined)).2
  = Normal (Some two_wards_result)
  /\ summary_count (wardPredictions (handleBulkPrediction_resumed (Normal two_wards_result)
                                                                 fresh_demo)) "Critical" = 0%nat.
Proof.
  assert (H : (run (always (Scenario.ok two_wards)) (predictMultipleWards JUndefined)).2
              = Normal (Some two_wards_result)) by (by vm_compute).
  split; [exact H|].
  by destruct (bulk_analysis_two_colours (always (Scenario.ok two_wards)) JUndefined
                 two_wards_result fresh_demo H) as (_ & _ & _ & _ & Hc & _).
Defined.

End BulkExamples.

Section BulkFailures.
Import Api Bulk.

Variable net : Request -> Completion Response.

Lemma get_throws (v : JsVal) (k : string) (e : Thrown) : get v k = Throw e -> e = TypeError.
Proof. unfold get. destruct (nullish v); by intros [= <-]. Qed.

Lemma ward_prediction_throws (item : JsVal) (e : Thrown) :
  ward_prediction item = Throw e -> e = TypeError.
Proof.
  unfold ward_prediction, get.
  destruct (nullish item); cbn; [by intros [= <-]|].
  destruct (nullish (own item "combined_assessment")); cbn; [by intros [= <-]|discriminate].
Qed.

Lemma collect_throws (items : list JsVal) (acc : gmap string WardPrediction) (e : Thrown) :
  collect items acc = Throw e -> e = TypeError.
Proof.
  revert acc. induction items as [|item rest IH]; intros acc; cbn; [discriminate|].
  destruct (ward_prediction item) as [[wardId p]|e'] eqn:Hp; cbn.
  - destruct (App.ToPropertyKey wardId); [apply IH|discriminate].
  - intros [= <-]. by apply ward_prediction_throws in Hp.
Qed.

Lemma transform_throws (response : JsVal) (e : Thrown) :
  transform response = Throw e -> e = TypeError.
Proof.
  unfold transform. destruct (get response "predictions") as [ps|e'] eqn:Hps; cbn.
  - destruct ps; cbn; try (by intros [= <-]).
    destruct (collect items ∅) as [c|e'] eqn:Hc; cbn.
    + destruct (get response "summary") as [s|e'] eqn:Hs; cbn;
        [|intros [= <-]; by apply get_throws in Hs].
      destruct (get response "timestamp") as [t|e'] eqn:Ht; cbn;
        [discriminate|intros [= <-]; by apply get_throws in Ht].
    + intros [= <-]. by apply collect_throws in Hc.
  - intros [= <-]. by apply get_throws in Hps.
Qed.

(** X13: the message "Models not trained" of [predictMultipleWards] is
    never reported when the transport rejects with axios errors only: a
    503 has already been replaced by [getAllWardsFloodPrediction], whose
    error carries no response, so the bulk call passes that message on. *)
Theorem bulk_unavailable_message (wardsData : JsVal) (e : Thrown) :
  (forall r e', net r = Throw e' -> exists response request message,
        e' = AxiosError response request message) ->
  (run net (predictMultipleWards wardsData)).2 = Throw e ->
  e <> Error [Lit "Models not trained. Please run training first."]
  /\ (forall e', net all_wards_request = Throw e' -> status_is e' 503 = true ->
        e = Error [Lit "Flood prediction models not initialized. Please check server status."]).
Proof.
  intros Haxios. unfold predictMultipleWards, getAllWardsFloodPrediction. cbn.
  fold all_wards_request.
  destruct (net all_wards_request) as [response|e0] eqn:Hnet; cbn.
  - destruct (transform (data response)) as [r|e'] eqn:Ht; cbn; [discriminate|].
    apply transform_throws in Ht. subst e'. cbn. intros [= <-].
    split; [discriminate|]. intros e' [=].
  - destruct (Haxios _ _ Hnet) as (response & request & message & ->).
    unfold status_is. cbn [response_of].
    destruct response as [response|]; cbn.
    + case_bool_decide as H503; cbn.
      * intros [= <-]. split; [discriminate|]. by intros e' _ _.
      * unfold rethrow. cbn [response_of]. rewrite (bool_decide_eq_false_2 _ H503).
        intros [= <-]. split; [by case_bool_decide|].
        intros e' [= <-]. cbn. by rewrite (bool_decide_eq_false_2 _ H503).
    + intros [= <-]. split; [discriminate|]. intros e' [= <-]. cbn. discriminate.
Qed.

End BulkFailures.

Section BulkFailureExamples.
Import Api Bulk Examples.

Lemma bulk_unavailable_message_witness :
  (run (always unavailable) (predictMultipleWards JUndefined)).2
  = Throw (Error [Lit "Flood prediction models not initialized. Please check server status."])
  /\ Error [Lit "Flood prediction models not initialized. Please check server status."]
     <> Error [Lit "Models not trained. Please run training first."].
Proof.
  split; [reflexivity|].
  apply (bulk_unavailable_message (always unavailable) JUndefined).
  - intros r e' [= <-]. eauto.
  - reflexivity.
Defined.

End BulkFailureExamples.

(** ** Ward codes in request paths *)

Section RequestPaths.
Import Api Paths.

Lemma nat_of_ascii_bound (c : ascii) : (nat_of_ascii c < 256)%nat.
Proof. destruct c as [[] [] [] [] [] [] [] []]; vm_compute; lia. Qed.

Lemma hex_digit_inj (a b : nat) :
  (a < 16)%nat -> (b < 16)%nat -> hex_digit a = hex_digit b -> a = b.
Proof.
  intros Ha Hb H. apply (f_equal nat_of_ascii) in H. unfold hex_digit in H.
  destruct (a <? 10)%nat eqn:Ha10, (b <? 10)%nat eqn:Hb10;
    rewrite !nat_ascii_embedding in H by lia;
    try apply Nat.ltb_lt in Ha10; try apply Nat.ltb_lt in Hb10;
    try apply Nat.ltb_ge in Ha10; try apply Nat.ltb_ge in Hb10; lia.
Qed.

Lemma byte_of_digits (c d : ascii) :
  hex_digit (nat_of_ascii c / 16) = hex_digit (nat_of_ascii d / 16) ->
  hex_digit (nat_of_ascii c mod 16) = hex_digit (nat_of_ascii d mod 16) ->
  c = d.
Proof.
  intros Hhi Hlo.
  pose proof (nat_of_ascii_bound c) as Hc. pose proof (nat_of_ascii_bound d) as Hd.
  apply hex_digit_inj in Hhi;
    [|apply Nat.Div0.div_lt_upper_bound; lia|apply Nat.Div0.div_lt_upper_bound; lia].
  apply hex_digit_inj in Hlo; [|apply Nat.mod_upper_bound; lia|apply Nat.mod_upper_bound; lia].
  rewrite <- (ascii_nat_embedding c), <- (ascii_nat_embedding d). f_equal.
  rewrite (Nat.div_mod_eq (nat_of_ascii c) 16), (Nat.div_mod_eq (nat_of_ascii d) 16).
  by rewrite Hhi, Hlo.
Qed.

Lemma encodeURIComponent_inj (a b : string) :
  encodeURIComponent a = encodeURIComponent b -> a = b.
Proof.
  revert b. induction a as [|c a IH]; intros [|d b]; cbn [encodeURIComponent].
  - done.
  - destruct (unreserved d); discriminate.
  - destruct (unreserved c); discriminate.
  - destruct (unreserved c) eqn:Hc, (unreserved d) eqn:Hd.
    + intros H. injection H as -> H. f_equal. by apply IH.
    + intros H. injection H as -> _. by vm_compute in Hc.
    + intros H. injection H as <- _. by vm_compute in Hd.
    + intros H. injection H as Hhi Hlo H. f_equal; [by apply byte_of_digits|by apply IH].
Qed.

Lemma encodeURIComponent_length (s : string) :
  (String.length s <= String.length (encodeURIComponent s))%nat.
Proof.
  induction s as [|c s IH]; cbn [encodeURIComponent String.length]; [lia|].
  destruct (unreserved c); cbn [String.length]; lia.
Qed.

Lemma encodeURIComponent_fixed (s : string) :
  encodeURIComponent s = s <-> all_unreserved s = true.
Proof.
  induction s as [|c s IH]; cbn [encodeURIComponent all_unreserved]; [done|].
  destruct (unreserved c) eqn:Hc; cbn [andb].
  - rewrite <- IH. split; [by intros [= H]|by intros ->].
  - split; [|discriminate]. intros H. injection H as _ H.
    apply (f_equal String.length) in H. cbn [String.length] in H.
    pose proof (encodeURIComponent_length s). lia.
Qed.

Lemma append_inj_r (p a b : string) : p +:+ a = p +:+ b -> a = b.
Proof. induction p as [|c p IH]; cbn; [done|]. intros H. injection H as H. by apply IH. Qed.

(** X14: the click handler of the map ([predictSingleWard]) and the panel
    ([getWardFloodPrediction]) hand axios the same path string exactly
    when the ward code has only characters that [encodeURIComponent]
    keeps; for a code such as H/E the two path strings differ. *)
Theorem ward_requests_agree_iff (wardCode : string) :
  issued (predictSingleWard wardCode) = issued (getWardFloodPrediction wardCode)
  <-> all_unreserved wardCode = true.
Proof.
  rewrite <- encodeURIComponent_fixed.
  unfold predictSingleWard, getWardFloodPrediction. cbn. split.
  - intros H. injection H as H. apply append_inj_r in H. by symmetry.
  - by intros ->.
Qed.

(** X15: the percent-encoding is injective, so the path strings that
    [getWardFloodPrediction] hands to axios for two ward codes coincide
    only for equal codes. *)
Theorem ward_request_determines_code (a b : string) :
  issued (getWardFloodPrediction a) = issued (getWardFloodPrediction b) <-> a = b.
Proof.
  split; [|by intros ->].
  unfold getWardFloodPrediction. cbn. intros H. injection H as H.
  by apply append_inj_r, encodeURIComponent_inj in H.
Qed.

End RequestPaths.

(** ** Answers to the click handler and to the panel *)

Section HandlerAnswers.
Import Api MapComponent App.



(** X18: when either request of the panel's [Promise.all] fails, nothing is
    committed: the map, the shown prediction and the shown weather stay as
    they were, the panel shows an error and stops loading, and the answer
    of the other request, when it arrives, is ignored. *)
Theorem panel_failure_commits_nothing (id : nat) (second : bool) (e : Thrown)
    (o' : Completion Response) (now now' : string) (st : AppState) (wardCode : string)
    (predictionData weatherData : Slot) :
  inflight st !! id = Some (PanelLoad wardCode predictionData weatherData) ->
  (if second then weatherData else predictionData)
  = Running (if second then getWardCurrentWeather wardCode
             else getWardFloodPrediction wardCode) ->
  exists st',
    settle id second (Throw e) now st = Some st'
    /\ predictions st' = predictions st
    /\ prediction (panel st') = prediction (panel st)
    /\ weather (panel st') = weather (panel st)
    /\ panel_loading (panel st') = false
    /\ is_Some (panel_error (panel st'))
    /\ inflight st' = delete id (inflight st)
    /\ settle id (negb second) o' now' st' = Some st'.
Proof.
  intros Hin Hslot. unfold settle at 1. rewrite Hin, Hslot.
  assert (Hres : exists e',
             resume (if second then getWardCurrentWeather wardCode
                     else getWardFloodPrediction wardCode) (Throw e) = Done (Throw e')).
  { destruct second; cbn.
    - destruct (status_is e 503); eauto.
    - destruct (status_is e 503); [eauto|].
      destruct (status_is e 404); [eauto|]. destruct (status_is e 500); eauto. }
  destruct Hres as [e' ->].
  eexists. split; [reflexivity|]. cbn.
  repeat (split; [done|]).
  unfold settle. cbn. by rewrite lookup_delete_eq.
Qed.

Lemma settled_insert (id : nat) (w : Waiter) (st : AppState) :
  settled id (setInflight (<[id := w]> (inflight st)) st) = settled id st.
Proof. unfold settled, setInflight. cbn. by rewrite delete_insert_eq. Qed.

Lemma resume_prediction (wardCode : string) (o : Completion Response) :
  exists r, resume (getWardFloodPrediction wardCode) o = Done r
            /\ (forall response, o = Normal response -> r = Normal (data response))
            /\ (forall e, o = Throw e -> exists e', r = Throw e').
Proof.
  unfold getWardFloodPrediction. cbn. destruct o as [response|e]; cbn.
  - eexists. split; [reflexivity|]. split; [by intros ? [= <-]|discriminate].
  - destruct (status_is e 503); [|destruct (status_is e 404); [|destruct (status_is e 500)]];
      eexists; (split; [reflexivity|]); (split; [discriminate|]); eauto.
Qed.

Lemma resume_weather (wardCode : string) (o : Completion Response) :
  exists r, resume (getWardCurrentWeather wardCode) o = Done r
            /\ (forall response, o = Normal response -> r = Normal (data response))
            /\ (forall e, o = Throw e -> exists e', r = Throw e').
Proof.
  unfold getWardCurrentWeather. cbn. destruct o as [response|e]; cbn.
  - eexists. split; [reflexivity|]. split; [by intros ? [= <-]|discriminate].
  - destruct (status_is e 503);
      eexists; (split; [reflexivity|]); (split; [discriminate|]); eauto.
Qed.

(** X19: the panel's [Promise.all] does not depend on the order of the two
    answers as long as one of them is a success: both orders end in the
    same state.  (When both fail, the error shown is that of the answer
    that arrived first.) *)
Theorem panel_answers_commute (id : nat) (o1 o2 : Completion Response) (now : string)
    (st : AppState) (wardCode : string) :
  inflight st !! id
  = Some (PanelLoad wardCode (Running (getWardFloodPrediction wardCode))
                             (Running (getWardCurrentWeather wardCode))) ->
  (exists r, o1 = Normal r) \/ (exists r, o2 = Normal r) ->
  (settle id false o1 now st ≫= settle id true o2 now)
  = (settle id true o2 now st ≫= settle id false o1 now).
Proof.
  intros Hin Hok.
  destruct (resume_prediction wardCode o1) as (r1 & Hr1 & Hok1 & Hbad1).
  destruct (resume_weather wardCode o2) as (r2 & Hr2 & Hok2 & Hbad2).
  unfold settle at 2 4. rewrite Hin, Hr1, Hr2.
  destruct o1 as [a1|e1], o2 as [a2|e2].
  - rewrite (Hok1 _ eq_refl), (Hok2 _ eq_refl) in *. cbn [mbind option_bind].
    unfold settle. cbn [inflight setInflight]. rewrite !lookup_insert_eq, Hr1, Hr2.
    by rewrite !settled_insert.
  - rewrite (Hok1 _ eq_refl) in *. destruct (Hbad2 _ eq_refl) as [e2' ->].
    cbn [mbind option_bind]. unfold settle. cbn [inflight setInflight].
    rewrite lookup_insert_eq, Hr2, settled_insert. cbn. by rewrite lookup_delete_eq.
  - rewrite (Hok2 _ eq_refl) in *. destruct (Hbad1 _ eq_refl) as [e1' ->].
    cbn [mbind option_bind]. unfold settle. cbn [inflight setInflight].
    rewrite lookup_insert_eq, Hr1, settled_insert. cbn. by rewrite lookup_delete_eq.
  - destruct Hok as [[r [=]]|[r [=]]].
Qed.

End HandlerAnswers.

Section HandlerAnswerExamples.
Import Api MapComponent App Scenario.


Lemma panel_failure_commits_nothing_witness :
  exists st',
    settle 1 false network_down noon (click ward_A initial) = Some st'
    /\ predictions st' = predictions (click ward_A initial)
    /\ settle 1 true (ok (JObj [])) midnight st' = Some st'.
Proof.
  assert (Hsel : selectedWard initial
                 <> Some (str_or (ward_name_full (properties ward_A)) "Unknown Ward"))
    by discriminate.
  destruct (click_inflight_panel ward_A initial _ (calculateCentroid_nonempty _ _ _) Hsel)
    as [Hin _].
  destruct (panel_failure_commits_nothing 1 false (AxiosError None true "Network Error")
              (ok (JObj [])) noon midnight _ _ _ _ Hin eq_refl)
    as (st' & Hs & Hp & _ & _ & _ & _ & _ & Hlate).
  exists st'. split; [exact Hs|]. split; [exact Hp|exact Hlate].
Defined.

Lemma panel_answers_commute_witness :
  (settle 1 false network_down noon (click ward_A initial)
     ≫= settle 1 true (ok (JObj [])) noon)
  = (settle 1 true (ok (JObj [])) noon (click ward_A initial)
       ≫= settle 1 false network_down noon).
Proof.
  assert (Hsel : selectedWard initial
                 <> Some (str_or (ward_name_full (properties ward_A)) "Unknown Ward"))
    by discriminate.
  destruct (click_inflight_panel ward_A initial _ (calculateCentroid_nonempty _ _ _) Hsel)
    as [Hin _].
  apply (panel_answers_commute 1 network_down (ok (JObj [])) noon _ _ Hin).
  right. by eexists.
Defined.

End HandlerAnswerExamples.

(** ** Entries the statistics cannot read *)

Section NullEntries.
Import Api StatsCards App.

Lemma visit_completes (c : Counters) (v : JsVal) :
  nullish v = false -> exists c', visit c v = Normal c'.
Proof. intros Hv. unfold visit. rewrite !get_not_nullish by exact Hv. by eexists. Qed.

Lemma forEach_throws_iff (values : list JsVal) (c : Counters) :
  forEach values c = Throw TypeError <-> Exists (fun v => nullish v = true) values.
Proof.
  revert c. induction values as [|v rest IH]; intros c; cbn [forEach].
  - split; [discriminate|]. intros H. by apply Exists_nil in H.
  - rewrite Exists_cons. destruct (nullish v) eqn:Hv.
    + rewrite visit_throws by exact Hv. cbn. split; [by left|done].
    + destruct (visit_completes c v Hv) as [c' ->]. cbn. rewrite IH.
      split; [by right|]. by intros [|].
Qed.

Lemma forEach_outcome (values : list JsVal) (c : Counters) :
  forEach values c = Throw TypeError \/ exists c', forEach values c = Normal c'.
Proof.
  revert c. induction values as [|v rest IH]; intros c; cbn [forEach]; [eauto|].
  destruct (nullish v) eqn:Hv.
  - rewrite visit_throws by exact Hv. by left.
  - destruct (visit_completes c v Hv) as [c' ->]. cbn. apply IH.
Qed.

Lemma calculateStats_throws_iff_null (predictions : gmap string JsVal) :
  calculateStats predictions = Throw TypeError
  <-> exists k v, predictions !! k = Some v /\ nullish v = true.
Proof.
  unfold calculateStats, calculateStats_of.
  destruct (forEach _ zero) as [c|e] eqn:Hf; cbn.
  - split; [discriminate|]. intros (k & v & Hk & Hv). exfalso.
    assert (Hex : Exists (fun v => nullish v = true) (map_to_list predictions).*2).
    { apply Exists_exists. exists v. split; [|exact Hv].
      apply (list_elem_of_fmap_2' snd _ (k, v)); [|reflexivity].
      by apply elem_of_map_to_list. }
    apply forEach_throws_iff with (c := zero) in Hex. congruence.
  - destruct (forEach_outcome (map_to_list predictions).*2 zero) as [Ht|[c Hc]];
      [|congruence].
    assert (e = TypeError) as -> by congruence.
    split; [|done]. intros _.
    apply forEach_throws_iff, Exists_exists in Ht as (v & Hin & Hv).
    apply list_elem_of_fmap_1 in Hin as ([k v'] & -> & Hin).
    apply elem_of_map_to_list in Hin. eauto.
Qed.


(** X21: the panel stores what [formatFloodPrediction] returns without
    looking at it.  When the ward prediction arrives with a falsy body
    ([null], an empty string, 0), the panel merges [null] under the ward,
    and from then on the statistics cards fail with a TypeError. *)
Theorem falsy_panel_answer_breaks_stats (now wardCode : string)
    (predictionData weatherData : JsVal) (st : AppState) :
  truthy predictionData = false ->
  let st' := panel_resumed now wardCode (Normal (predictionData, weatherData)) st in
  predictions st' !! wardCode = Some JNull
  /\ panel_error (panel st') = panel_error (panel st)
  /\ calculateStats (predictions st') = Throw TypeError.
Proof.
  intros Hfalsy st'.
  assert (Hst : predictions st' = <[wardCode := JNull]> (predictions st)
                /\ panel_error (panel st') = panel_error (panel st)).
  { subst st'. unfold panel_resumed. cbn [mbind Completion_bind cbind].
    rewrite formatFloodPrediction_falsy by exact Hfalsy. by cbn. }
  destruct Hst as [Hp He]. split; [by rewrite Hp, lookup_insert_eq|].
  split; [exact He|].
  apply calculateStats_throws_iff_null. exists wardCode, JNull.
  by rewrite Hp, lookup_insert_eq.
Qed.

Lemma falsy_panel_answer_breaks_stats_witness :
  calculateStats (predictions (panel_resumed Scenario.noon "A" (Normal (JNull, JObj []))
                                             initial))
  = Throw TypeError.
Proof.
  by destruct (falsy_panel_answer_breaks_stats Scenario.noon "A" JNull (JObj []) initial
                 eq_refl) as (_ & _ & H).
Defined.

End NullEntries.

(** ** The answer to a bulk load *)

Section BulkLoad.
Import Api App.



End BulkLoad.

(** ** The colour of a ward after its answers *)

Section WardColour.
Import Api MapComponent App.







End WardColour.

Section WardColourExamples.
Import Api MapComponent App Scenario Examples.



(** A ward that was never analysed and whose short name is the name of a
    member of [Object.prototype] is painted like an analysed ward of
    unknown level. *)
Lemma inherited_name_is_painted :
  getFeatureStyle ∅ None
    {| properties := {| ward_name_full := None; name := Some "constructor"%string;
                        NAME := None; ward_code := None |};
       coordinates := None |}
  = Normal {| fillColor := "#4285f4"; weight := 2; opacity := 1; color := "#495057";
              dashArray := ""; fillOpacity := dec 8 10 |}.
Proof. reflexivity. Qed.

End WardColourExamples.

(** ** Colours of the details pane and clients of the same endpoint *)

Section Duplicates.
Import Api MapComponent Endpoints.

(** X25: the map and the details pane fail on the same levels: a level
    that is a number, a boolean, an array or an object makes the colour of
    the map, the colour of the pane and the description of the pane throw
    a TypeError.  For every other level (absent, null or a string) all
    three return, the two colours are the same for a recognised level and
    differ only for an unrecognised one (blue on the map, grey in the
    pane, where the description is then "Risk assessment unavailable"). *)
Theorem details_and_map_colours (riskLevel : JsVal) :
  match riskLevel with
  | JUndefined | JNull | JStr _ =>
      exists onMap inPane description,
        MapComponent.getRiskColor riskLevel = Normal onMap
        /\ DetailsPane.getRiskColor riskLevel = Normal inPane
        /\ DetailsPane.getRiskDescription riskLevel = Normal description
        /\ (onMap = inPane <-> onMap <> "#4285f4"%string)
        /\ (onMap = "#4285f4"%string <-> inPane = "#6c757d"%string)
        /\ (inPane = "#6c757d"%string
            <-> description = "Risk assessment unavailable"%string)
  | JBool _ | JNum _ | JArr _ | JObj _ =>
      MapComponent.getRiskColor riskLevel = Throw TypeError
      /\ DetailsPane.getRiskColor riskLevel = Throw TypeError
      /\ DetailsPane.getRiskDescription riskLevel = Throw TypeError
  end.
Proof.
  destruct riskLevel as [| |b|n|s|items|fields]; try done;
    cbn; do 3 eexists; (split; [reflexivity|]); (split; [reflexivity|]);
    (split; [reflexivity|]); try done.
  repeat case_bool_decide; done.
Qed.

Variable net : Request -> Completion Response.

(** X26: two pairs of client functions ask the same endpoint
    ([/wards/clusters], [/models/info]) and report every outcome alike
    except a 503, for which each has a message of its own. *)
Theorem duplicate_clients_differ_on_503 :
  (run net getWardClustering).1 = [clusters_request]
  /\ (run net getWardClusters).1 = [clusters_request]
  /\ (run net getModelInfo).1 = [models_info_request]
  /\ (run net getFloodModelInfo).1 = [models_info_request]
  /\ ((run net getWardClustering).2 = (run net getWardClusters).2
      <-> forall e, net clusters_request = Throw e -> status_is e 503 = false)
  /\ ((run net getModelInfo).2 = (run net getFloodModelInfo).2
      <-> forall e, net models_info_request = Throw e -> status_is e 503 = false).
Proof.
  unfold getWardClustering, getWardClusters, getModelInfo, getFloodModelInfo. cbn.
  fold clusters_request models_info_request.
  destruct (net clusters_request) as [r1|e1], (net models_info_request) as [r2|e2]; cbn;
    repeat match goal with
           | |- context [status_is ?e 503] => destruct (status_is e 503) eqn:?
           end; cbn;
    repeat (split; [done|]);
    repeat split; try done; try (by intros ? [= <-]); try (intros H; by apply H);
    try (intros H; specialize (H _ eq_refl); congruence);
    try (intros _ ? [= <-]; assumption);
    try (intros [= ->]; discriminate).
Qed.

End Duplicates.

(** ** The ward prediction panel of the demo *)

Section PredictWard.
Import Api Fallbacks WardPredictionPanel.

Variable net : nat -> Request -> Completion Response.

(** X27: [handlePredictWard] without a selected ward sends nothing and asks
    for a ward.  With a ward it always ends with the loading flag cleared.
    When the answer to the prediction request is a failure, that is the
    only request, the error is its message and the shown prediction and
    status stay.  Otherwise the prediction is the body of the answer and
    the same ward is asked for a second time for the status; whatever the
    backend answers this second time, no error is shown and the status is
    a record: the one for no recent data when the second answer is a
    failure or has no body or no combined assessment, a current one
    otherwise. *)
Theorem handlePredictWard_outcome (now ward : string) (st : State) :
  ward <> ""%string ->
  run_from net 0 (handlePredictWard now None st)
  = ([], Normal (setError (Some [Lit "Please select a ward first"]) st))
  /\ exists st',
       (run_from net 0 (handlePredictWard now (Some ward) st)).2 = Normal st'
       /\ loading st' = false
       /\ match net 0 (ward_prediction_request ward) with
          | Throw e =>
              (run_from net 0 (handlePredictWard now (Some ward) st)).1
              = [ward_prediction_request ward]
              /\ error st' = Some (message_of e)
              /\ prediction st' = prediction st
              /\ currentStatus st' = currentStatus st
          | Normal response =>
              (run_from net 0 (handlePredictWard now (Some ward) st)).1
              = [ward_prediction_request ward;
                 ward_prediction_request (encodeURIComponent ward)]
              /\ error st' = None
              /\ prediction st' = data response
              /\ own (currentStatus st') "status"
                 = match net 1 (ward_prediction_request (encodeURIComponent ward)) with
                   | Throw _ => JStr "no_recent_data"
                   | Normal second =>
                       if nullish (data second)
                          || nullish (own (data second) "combined_assessment")
                       then JStr "no_recent_data"
                       else JStr "current"
                   end
          end.
Proof.
  intros Hward. split; [reflexivity|].
  unfold handlePredictWard, loadCurrentStatus, App.nonempty.
  rewrite bool_decide_eq_false_2 by exact Hward.
  unfold predictSingleWard, getWardCurrentStatus, getWardFloodPrediction,
    ward_prediction_request.
  cbn. destruct (net 0 {| method := POST; url := "/predict/ward/" +:+ ward; body := None |})
    as [response|e]; cbn.
  - destruct (net 1 _) as [response2|e2]; cbn.
    + unfold get. destruct (nullish (data response2)); cbn;
        [eexists; by repeat split|].
      destruct (nullish (own (data response2) "combined_assessment")); cbn;
        eexists; by repeat split.
    + repeat destruct (status_is e2 _); cbn; eexists; by repeat split.
  - eexists. by repeat split.
Qed.

End PredictWard.

Section PredictWardExamples.
Import Api Fallbacks WardPredictionPanel Examples.

Lemma handlePredictWard_outcome_witness :
  exists st',
    (run_from once_then_unavailable 0
       (handlePredictWard Scenario.noon (Some "A"%string)
          {| prediction := JNull; currentStatus := JNull; loading := false;
             error := None |})).2 = Normal st'
    /\ loading st' = false
    /\ error st' = None
    /\ own (currentStatus st') "status" = JStr "no_recent_data".
Proof.
  assert (Hward : "A"%string <> ""%string) by discriminate.
  destruct (handlePredictWard_outcome once_then_unavailable Scenario.noon "A"
              {| prediction := JNull; currentStatus := JNull; loading := false;
                 error := None |} Hward) as (_ & st' & Hrun & Hloading & Hfirst).
  cbn in Hfirst. destruct Hfirst as (_ & Herror & _ & Hstatus).
  exists st'. by repeat split.
Defined.

End PredictWardExamples.

(** ** The connection status and the bulk load *)

Section ConnectionStatus.
Import Api Fallbacks App Connection.

Variable net : Request -> Completion Response.

(** X28: after the health check the application is connected exactly when
    the health answer arrived with a body; it then starts the bulk load
    exactly when the body reports loaded models.  In every other case it is
    disconnected and shows an error, and no request is sent.  Refresh sends
    the bulk request when connected (whatever the health answer said about
    the models) and the health request otherwise. *)
Theorem bulk_load_needs_connection (sh : Shell) :
  let sh' := checkApiHealth_resumed (run net checkFloodApiHealth).2 sh in
  (apiStatus sh' = connected
   <-> exists response, net health_request = Normal response
                        /\ nullish (data response) = false)
  /\ (apiStatus sh' = connected \/
      (apiStatus sh' = disconnected /\ is_Some (error (app sh'))
       /\ sent (app sh') = sent (app sh)))
  /\ (sent (app sh') = sent (app sh) ++ [all_wards_request]
      <-> exists response, net health_request = Normal response
                           /\ truthy (own (data response) "models_loaded") = true
                           /\ nullish (data response) = false)
  /\ sent (app (handleRefresh sh))
     = sent (app sh) ++ [match apiStatus sh with
                         | connected => all_wards_request
                         | _ => health_request
                         end].
Proof.
  cbn zeta. unfold checkApiHealth_resumed, checkFloodApiHealth. cbn.
  fold health_request.
  assert (Hgrow : forall l : list Request, l = l ++ [all_wards_request] -> False).
  { intros l H. apply (f_equal length) in H. rewrite length_app in H. cbn in H. lia. }
  split; [|split; [|split]].
  - destruct (net health_request) as [response|e]; cbn.
    + unfold get. destruct (nullish (data response)) eqn:Hn; cbn.
      * split; [discriminate|]. intros (r & [= <-] & Hr). congruence.
      * split; [eauto|done].
    + split; [discriminate|]. by intros (r & [=] & _).
  - destruct (net health_request) as [response|e]; cbn.
    + unfold get. destruct (nullish (data response)); cbn; [right|left]; eauto.
    + right. eauto.
  - destruct (net health_request) as [response|e]; cbn.
    + unfold get. destruct (nullish (data response)) eqn:Hn; cbn.
      * split; [intros H; by apply Hgrow in H|]. intros (r & [= <-] & _ & Hr). congruence.
      * destruct (truthy (own (data response) "models_loaded")) eqn:Ht; cbn.
        -- split; [eauto|done].
        -- split; [intros H; by apply Hgrow in H|].
           intros (r & [= <-] & Hr & _). congruence.
    + split; [intros H; by apply Hgrow in H|]. by intros (r & [=] & _).
  - unfold handleRefresh. by destruct (apiStatus sh).
Qed.

End ConnectionStatus.
